(** * yival.schemas.experiment_config: variation instantiation and the
      experiment data model

    A shallow embedding of [src/yival/schemas/experiment_config.py].

    The module is a set of dataclasses; its only behaviour is
    [WrapperVariation.instantiate], run from [__post_init__], and the
    [asdict] conversions.  Both lean on the Python runtime: the built-in
    constructors [str], [int], [float], [bool], the call protocol of a
    dataclass-generated [__init__], and [dataclasses.asdict].  Those are
    modelled here as far as the module uses them:

    - a Python string is a [string], read as a sequence of code points
      below 256;
    - floating point numbers, and the [repr] of floats, containers and
      class instances, are left to a [PyRuntime] instance, as is the
      interpreter's cap on decimal conversions of integers;
    - an exception is its class name and, where the module itself builds
      it, its message;
    - [==] on values is Rocq's equality on [PyVal] (a NaN counts as equal
      to itself);
    - a class instance is its class name and attributes; instances have the
      default conversions ([bool] is true, [int] and [float] are refused),
      and a registered class is a function of its keyword arguments.

    The built-in conversions follow CPython 3.11. *)

From Stdlib Require Import ZArith Lia Ascii.
From stdpp Require Import base option list strings pretty gmap.

Local Open Scope Z_scope.
#[local] Set Warnings "-clear-no-such-hyp".  (* raised inside naive_solver *)

(** ** Exceptions and results *)

Record PyExc := mkExc {
  exc_class : string;          (* name of the exception class *)
  exc_msg : option string      (* [None]: a message of the interpreter *)
}.

Definition ValueError (msg : option string) : PyExc := mkExc "ValueError" msg.
Definition TypeError : PyExc := mkExc "TypeError" None.
Definition OverflowError : PyExc := mkExc "OverflowError" None.

(** The outcome of a call: a value, an exception, or the evaluation, by
    [eval], of source text that is not one of the names the model resolves. *)
Inductive Res (A : Type) : Type :=
  | Ok (a : A)
  | Raise (e : PyExc)
  | RunsCode (src : string).
Arguments Ok {A} a.
Arguments Raise {A} e.
Arguments RunsCode {A} src.

#[global] Instance Res_ret : MRet Res := λ A a, Ok a.
#[global] Instance Res_bind : MBind Res := λ A B f m,
  match m with
  | Ok a => f a
  | Raise e => Raise e
  | RunsCode src => RunsCode src
  end.

Definition raises {A} (r : Res A) (cls : string) : Prop :=
  ∃ e, r = Raise e ∧ exc_class e = cls.

Definition fails {A} (r : Res A) : Prop := ∃ e, r = Raise e.

(** ** The runtime: floats and [repr] *)

Class PyFloats := {
  pyfloat : Type;
  (* float(s) for a str s; [None] is ValueError *)
  float_of_string : string → option pyfloat;
  (* float(n) for an int n; [None] is OverflowError *)
  float_of_int : Z → option pyfloat;
  (* truncation towards zero; [None] for NaN and the infinities *)
  float_trunc : pyfloat → option Z;
  float_is_nan : pyfloat → bool;
  (* truth value of a float: false for 0.0 and -0.0 *)
  float_nonzero : pyfloat → bool
}.

(** ** Values *)

#[warnings="-register-all"]
Inductive PyVal `{PyFloats} : Type :=
  | PyNone
  | PyBool (b : bool)
  | PyInt (n : Z)
  | PyFloat (f : pyfloat)
  | PyStr (s : string)
  | PyList (items : list PyVal)
  | PyDict (entries : list (PyVal * PyVal))      (* in insertion order *)
  (* an instance of class [cls] with attributes [attrs]; [dc]: the class is
     a [@dataclass] with the default options, as every dataclass of this
     module is, and [attrs] are its fields in the order of declaration *)
  | PyObj (dc : bool) (cls : string) (attrs : list (string * PyVal)).

Class PyRuntime := {
  rt_floats :: PyFloats;
  (* repr(v), used for the values whose [str] is their [repr] *)
  py_repr : PyVal → string;
  (* sys.get_int_max_str_digits(): the cap on decimal int <-> str
     conversions; 0 disables it *)
  int_max_str_digits : nat
}.

(** ** The built-in constructors *)

Section Builtins.
Context `{rt : PyRuntime}.

(** *** [int(s)] for a string, base 10 *)

Definition is_space (c : ascii) : bool :=
  let n := nat_of_ascii c in
  ((9 <=? n) && (n <=? 13) || (n =? 32) || (n =? 133) || (n =? 160))%nat.

Definition digit_value (c : ascii) : option Z :=
  let n := nat_of_ascii c in
  if ((48 <=? n) && (n <=? 57))%nat then Some (Z.of_nat (n - 48)) else None.

Fixpoint skip_spaces (s : string) : string :=
  match s with
  | String c s' => if is_space c then skip_spaces s' else s
  | EmptyString => EmptyString
  end.

(** The run of digits and underscores at the head of [s].  [prev_us]: the
    character before was an underscore.  The result is the value, the
    number of digits and the rest of the string; [None] when two
    underscores meet or the run ends in one. *)
Fixpoint scan_digits (prev_us : bool) (acc : Z) (cnt : nat) (s : string)
    : option (Z * nat * string) :=
  match s with
  | String c s' =>
      match digit_value c with
      | Some d => scan_digits false (10 * acc + d) (S cnt) s'
      | None =>
          if Ascii.eqb c "_" then
            if prev_us then None else scan_digits true acc cnt s'
          else if prev_us then None else Some (acc, cnt, s)
      end
  | EmptyString => if prev_us then None else Some (acc, cnt, s)
  end.

Definition over_digit_limit (cnt : nat) : bool :=
  ((0 <? int_max_str_digits) && (int_max_str_digits <? cnt))%nat.

Definition split_sign (s : string) : bool * string :=
  match s with
  | String c s' =>
      if Ascii.eqb c "+" then (false, s')
      else if Ascii.eqb c "-" then (true, s')
      else (false, s)
  | EmptyString => (false, s)
  end.

Definition starts_with_underscore (s : string) : bool :=
  match s with
  | String c _ => Ascii.eqb c "_"
  | EmptyString => false
  end.

Definition int_of_str (s : string) : Res Z :=
  let '(neg, body) := split_sign (skip_spaces s) in
  if starts_with_underscore body then Raise (ValueError None)
  else match scan_digits false 0 0 body with
       | Some (n, cnt, rest) =>
           if (cnt =? 0)%nat then Raise (ValueError None)
           else if over_digit_limit cnt then Raise (ValueError None)
           else match skip_spaces rest with
                | EmptyString => Ok (if neg then - n else n)
                | String _ _ => Raise (ValueError None)
                end
       | None => Raise (ValueError None)
       end.

(** *** [str], [int], [float], [bool] on a value *)

Definition decimal_digits (n : Z) : nat := String.length (pretty (Z.abs n)).

(** Writing [v] out meets an int that has more decimal digits than the
    cap: [v] itself, or an int that the [repr] of [v] reaches, through
    the items of a list, the keys and values of a mapping and the fields
    of a dataclass instance.  The default [repr] of an instance of
    another class does not look at its attributes. *)
Fixpoint repr_over_cap (v : PyVal) : bool :=
  match v with
  | PyInt n => over_digit_limit (decimal_digits n)
  | PyList items => existsb repr_over_cap items
  | PyDict entries =>
      existsb (λ '(k, x), repr_over_cap k || repr_over_cap x) entries
  | PyObj true _ attrs => existsb (λ '(_, x), repr_over_cap x) attrs
  | _ => false
  end.

(** The text of [str(v)], which is also what an f-string puts for [{v}].
    It fails with ValueError when an int over the cap has to be written. *)
Definition py_str_text (v : PyVal) : Res string :=
  if repr_over_cap v then Raise (ValueError None)
  else Ok match v with
          | PyStr s => s
          | PyNone => "None"
          | PyBool b => if b then "True" else "False"
          | PyInt n => pretty n
          | _ => py_repr v
          end.

Definition py_str (v : PyVal) : Res PyVal :=
  s ← py_str_text v; Ok (PyStr s).

Definition py_int (v : PyVal) : Res PyVal :=
  match v with
  | PyInt n => Ok (PyInt n)
  | PyBool b => Ok (PyInt (if b then 1 else 0))
  | PyFloat f =>
      match float_trunc f with
      | Some n => Ok (PyInt n)
      | None =>
          if float_is_nan f then Raise (ValueError None)
          else Raise OverflowError
      end
  | PyStr s => n ← int_of_str s; Ok (PyInt n)
  | _ => Raise TypeError
  end.

Definition py_float_of_int (n : Z) : Res PyVal :=
  match float_of_int n with
  | Some f => Ok (PyFloat f)
  | None => Raise OverflowError
  end.

Definition py_float (v : PyVal) : Res PyVal :=
  match v with
  | PyFloat f => Ok (PyFloat f)
  | PyInt n => py_float_of_int n
  | PyBool b => py_float_of_int (if b then 1 else 0)
  | PyStr s =>
      match float_of_string s with
      | Some f => Ok (PyFloat f)
      | None => Raise (ValueError None)
      end
  | _ => Raise TypeError
  end.

Definition py_truthy (v : PyVal) : bool :=
  match v with
  | PyNone => false
  | PyBool b => b
  | PyInt n => negb (n =? 0)
  | PyFloat f => float_nonzero f
  | PyStr s => negb (String.eqb s EmptyString)
  | PyList items => negb (bool_decide (items = []))
  | PyDict entries => negb (bool_decide (entries = []))
  | PyObj _ _ _ => true
  end.

Definition py_bool (v : PyVal) : Res PyVal := Ok (PyBool (py_truthy v)).

End Builtins.

(** ** Calling a class *)

Section Calls.
Context `{rt : PyRuntime}.

Fixpoint assoc (k : string) (l : list (string * PyVal)) : option PyVal :=
  match l with
  | [] => None
  | (k', v) :: l' => if String.eqb k k' then Some v else assoc k l'
  end.

(** A parameter of a dataclass-generated [__init__]: the field name and
    its default, if it has one. *)
Record Param := mkParam { p_name : string; p_default : option PyVal }.

Fixpoint collect (params : list Param) (given : list (string * PyVal))
    : Res (list (string * PyVal)) :=
  match params with
  | [] => Ok []
  | p :: ps =>
      v ← match assoc (p_name p) given with
          | Some v => Ok v
          | None =>
              match p_default p with
              | Some d => Ok d
              | None => Raise TypeError          (* a required argument is missing *)
              end
          end;
      rest ← collect ps given;
      Ok ((p_name p, v) :: rest)
  end.

Definition keyword_allowed (names taken : list string) (k : string) : bool :=
  bool_decide (k ∈ names) && negb (bool_decide (k ∈ taken)).

(** Binding of the arguments of a call to the parameters: positional
    arguments fill the first parameters, keywords the others.  Every
    failure is a TypeError. *)
Definition bind_args (params : list Param) (args : list PyVal)
    (kwargs : list (string * PyVal)) : Res (list (string * PyVal)) :=
  let names := p_name <$> params in
  let positional := zip names args in
  if (length params <? length args)%nat then Raise TypeError
  else if negb (bool_decide (NoDup kwargs.*1)) then Raise TypeError
  else if negb (forallb (keyword_allowed names positional.*1) kwargs.*1)
    then Raise TypeError
  else collect params (positional ++ kwargs).

Definition field (bound : list (string * PyVal)) (k : string) : PyVal :=
  default PyNone (assoc k bound).

(** Unpacking [v] into keyword arguments: [v] has to be a mapping whose
    keys are strings. *)
Fixpoint keyword_args (entries : list (PyVal * PyVal))
    : option (list (string * PyVal)) :=
  match entries with
  | [] => Some []
  | (PyStr k, v) :: rest => kw ← keyword_args rest; Some ((k, v) :: kw)
  | _ => None
  end.

Definition unpack_mapping (v : PyVal) : Res (list (string * PyVal)) :=
  match v with
  | PyDict entries =>
      match keyword_args entries with
      | Some kw => Ok kw
      | None => Raise TypeError
      end
  | _ => Raise TypeError
  end.

Definition hashable (v : PyVal) : bool :=
  match v with
  | PyList _ | PyDict _ => false
  | PyObj dc _ _ => negb dc
  | _ => true
  end.

End Calls.

(** ** WrapperVariation *)

Section Variation.
Context `{rt : PyRuntime}.

(** A registered class: what calling it with keyword arguments gives. *)
Definition Ctor : Type := list (string * PyVal) → Res PyVal.

(** The registry as the module defines it. *)
Definition CLASS_REGISTRY : gmap string Ctor := ∅.

(** What a call of [instantiate] does besides returning: the source text
    it hands to [eval], and the registered classes it calls. *)
Inductive Event :=
  | EvEval (src : string)
  | EvConstruct (cls : PyVal) (kwargs : list (string * PyVal)).

Record Run := mkRun { events : list Event; outcome : Res PyVal }.

Inductive Builtin := B_str | B_int | B_float | B_bool.

(** [eval(src)] in the namespace of the module, which shadows none of
    the four built-in names. *)
Definition py_eval (src : string) : option Builtin :=
  if String.eqb src "str" then Some B_str
  else if String.eqb src "int" then Some B_int
  else if String.eqb src "float" then Some B_float
  else if String.eqb src "bool" then Some B_bool
  else None.

Definition call_builtin (f : Builtin) (v : PyVal) : Res PyVal :=
  match f with
  | B_str => py_str v
  | B_int => py_int v
  | B_float => py_float v
  | B_bool => py_bool v
  end.

Definition primitive_tags : list string := ["str"; "int"; "float"; "bool"].

(** [v in l] for a list [l] of str literals. *)
Definition in_strings (v : PyVal) (l : list string) : bool :=
  match v with
  | PyStr s => bool_decide (s ∈ l)
  | _ => false
  end.

(** [v in reg] and [reg[v]]: the key is hashed first. *)
Definition registry_find (reg : gmap string Ctor) (v : PyVal)
    : Res (option Ctor) :=
  if hashable v then
    Ok (match v with PyStr s => reg !! s | _ => None end)
  else Raise TypeError.

Definition instantiate (reg : gmap string Ctor) (value_type value : PyVal)
    : Run :=
  if in_strings value_type primitive_tags then
    match value_type with
    | PyStr src =>
        mkRun [EvEval src]
              match py_eval src with
              | Some f => call_builtin f value
              | None => RunsCode src
              end
    | _ => mkRun [] (Raise TypeError)
    end
  else
    match registry_find reg value_type with
    | Ok (Some ctor) =>
        match unpack_mapping value with
        | Ok kwargs => mkRun [EvConstruct value_type kwargs] (ctor kwargs)
        | Raise e => mkRun [] (Raise e)
        | RunsCode src => mkRun [] (RunsCode src)
        end
    | Ok None =>
        mkRun [] (shown ← py_str_text value_type;
                  Raise (ValueError
                           (Some ("Unsupported value_type: " +:+ shown))))
    | Raise e => mkRun [] (Raise e)
    | RunsCode src => mkRun [] (RunsCode src)
    end.

Record WrapperVariation := mkWrapperVariation {
  value_type : PyVal;
  value : PyVal;
  instantiated_value : PyVal;       (* field(init=False) *)
  variation_id : PyVal
}.

Definition WrapperVariation_params : list Param :=
  [mkParam "value_type" None; mkParam "value" None;
   mkParam "variation_id" (Some PyNone)].

(** A call of the class with positional and keyword arguments: the
    generated [__init__], then [__post_init__]. *)
Definition WrapperVariation_new (reg : gmap string Ctor)
    (args : list PyVal) (kwargs : list (string * PyVal))
    : Res WrapperVariation :=
  bound ← bind_args WrapperVariation_params args kwargs;
  let vt := field bound "value_type" in
  let v := field bound "value" in
  iv ← outcome (instantiate reg vt v);
  Ok (mkWrapperVariation vt v iv (field bound "variation_id")).

End Variation.

(** ** [asdict] and WrapperConfig *)

Section Asdict.
Context `{rt : PyRuntime}.

(** [dataclasses._asdict_inner] with the default [dict_factory]: a
    dataclass instance becomes the mapping of its fields, lists and
    mappings are rebuilt, anything else is deep-copied. *)
Fixpoint asdict_inner (v : PyVal) : PyVal :=
  match v with
  | PyObj true _ attrs =>
      PyDict (map (λ '(k, x), (PyStr k, asdict_inner x)) attrs)
  | PyList items => PyList (map asdict_inner items)
  | PyDict entries =>
      PyDict (map (λ '(k, x), (asdict_inner k, asdict_inner x)) entries)
  | _ => v
  end.

(** The instance as a Python object. *)
Definition WrapperVariation_obj (w : WrapperVariation) : PyVal :=
  PyObj true "WrapperVariation"
    [("value_type", value_type w); ("value", value w);
     ("instantiated_value", instantiated_value w);
     ("variation_id", variation_id w)].

Definition WrapperVariation_asdict (w : WrapperVariation) : PyVal :=
  asdict_inner (WrapperVariation_obj w).

(** [variations] is taken at its declared type, a list of
    WrapperVariation. *)
Record WrapperConfig := mkWrapperConfig {
  name : PyVal;
  variations : list WrapperVariation
}.

Definition WrapperConfig_obj (c : WrapperConfig) : PyVal :=
  PyObj true "WrapperConfig"
    [("name", name c);
     ("variations", PyList (WrapperVariation_obj <$> variations c))].

Definition WrapperConfig_asdict (c : WrapperConfig) : PyVal :=
  asdict_inner (WrapperConfig_obj c).

(** Values that are data only: no class instance anywhere inside. *)
Fixpoint plain_data (v : PyVal) : bool :=
  match v with
  | PyObj _ _ _ => false
  | PyList items => forallb plain_data items
  | PyDict entries =>
      forallb (λ '(k, x), plain_data k && plain_data x) entries
  | _ => true
  end.

(** *** Reading a mapping back *)

Definition is_key (k : string) (v : PyVal) : bool :=
  match v with
  | PyStr s => String.eqb s k
  | _ => false
  end.

Definition KeyError : PyExc := mkExc "KeyError" None.

(** [d[k]] for a str [k]. *)
Definition dict_get (d : PyVal) (k : string) : Res PyVal :=
  match d with
  | PyDict entries =>
      match list_find (λ e, is_key k e.1 = true) entries with
      | Some (_, (_, x)) => Ok x
      | None => Raise KeyError
      end
  | _ => Raise TypeError
  end.

Fixpoint mapM {A B} (f : A → Res B) (l : list A) : Res (list B) :=
  match l with
  | [] => Ok []
  | a :: l' => b ← f a; bs ← mapM f l'; Ok (b :: bs)
  end.

(** Modelled from the spec: the loader that rebuilds a variation from its
    structural mapping is not part of the module.  Following section 6
    and the round-trip property of section 8, it reads the declared
    fields [value_type], [value] and [variation_id] of the mapping and
    calls the class with them, so that [instantiated_value] is derived
    again and not read from the mapping. *)
Definition WrapperVariation_from_dict (reg : gmap string Ctor) (d : PyVal)
    : Res WrapperVariation :=
  vt ← dict_get d "value_type";
  v ← dict_get d "value";
  vid ← dict_get d "variation_id";
  WrapperVariation_new reg []
    [("value_type", vt); ("value", v); ("variation_id", vid)].

(** Modelled from the spec: the same loader for a WrapperConfig, which
    rebuilds every entry of [variations]. *)
Definition WrapperConfig_from_dict (reg : gmap string Ctor) (d : PyVal)
    : Res WrapperConfig :=
  n ← dict_get d "name";
  vs ← dict_get d "variations";
  match vs with
  | PyList items =>
      ws ← mapM (WrapperVariation_from_dict reg) items;
      Ok (mkWrapperConfig n ws)
  | _ => Raise TypeError
  end.

End Asdict.

(** ** ExperimentConfig *)

Module ExperimentConfig.
Section Config.
Context `{rt : PyRuntime}.

Record t := mk {
  description : PyVal;
  variations : PyVal;
  dataset : PyVal;
  wrapper_configs : PyVal;
  combinations_to_run : PyVal;
  evaluators : PyVal;
  output : PyVal;
  human_rating_configs : PyVal;
  existing_experiment_path : PyVal;
  version : PyVal;
  output_parser : PyVal;
  metadata : PyVal
}.

Definition params : list Param :=
  [mkParam "description" None;
   mkParam "variations" None;
   mkParam "dataset" None;
   mkParam "wrapper_configs" (Some PyNone);
   mkParam "combinations_to_run" (Some PyNone);
   mkParam "evaluators" (Some PyNone);
   mkParam "output" (Some PyNone);
   mkParam "human_rating_configs" (Some (PyList []));   (* default_factory=list *)
   mkParam "existing_experiment_path" (Some PyNone);
   mkParam "version" (Some PyNone);
   mkParam "output_parser" (Some PyNone);
   mkParam "metadata" (Some (PyDict []))].              (* default_factory=dict *)

(** A call of the class: the generated [__init__]; the class has no
    [__post_init__]. *)
Definition new (args : list PyVal) (kwargs : list (string * PyVal)) : Res t :=
  bound ← bind_args params args kwargs;
  Ok (mk (field bound "description") (field bound "variations")
         (field bound "dataset") (field bound "wrapper_configs")
         (field bound "combinations_to_run") (field bound "evaluators")
         (field bound "output") (field bound "human_rating_configs")
         (field bound "existing_experiment_path") (field bound "version")
         (field bound "output_parser") (field bound "metadata")).

End Config.
End ExperimentConfig.

(** ** The words of the specification *)

Section Spec.
Context `{rt : PyRuntime}.

(** *** Literals and their natural parse *)

Fixpoint digits_value (acc : Z) (s : string) : option Z :=
  match s with
  | EmptyString => Some acc
  | String c s' => d ← digit_value c; digits_value (10 * acc + d) s'
  end.

(** One or more decimal digits. *)
Definition unsigned_literal (s : string) : option Z :=
  match s with
  | EmptyString => None
  | String _ _ => digits_value 0 s
  end.

(** An optional sign and one or more decimal digits. *)
Definition int_literal (s : string) : option Z :=
  match s with
  | String c s' =>
      if Ascii.eqb c "-" then Z.opp <$> unsigned_literal s'
      else if Ascii.eqb c "+" then unsigned_literal s'
      else unsigned_literal s
  | EmptyString => None
  end.

Definition bool_literal (s : string) : option bool :=
  if String.eqb s "true" || String.eqb s "True" then Some true
  else if String.eqb s "false" || String.eqb s "False" then Some false
  else None.

(** The natural parse of the literal [s] at the primitive type [t];
    [None] when [s] is no literal of that type.  Every string is a
    literal of [str]; the literals of [float] are those of the runtime. *)
Definition natural_parse (t s : string) : option PyVal :=
  if String.eqb t "str" then Some (PyStr s)
  else if String.eqb t "int" then PyInt <$> int_literal s
  else if String.eqb t "float" then PyFloat <$> float_of_string s
  else if String.eqb t "bool" then PyBool <$> bool_literal s
  else None.

(** *** The closed dispatch table *)

Definition primitive_parser (t : string) : option (PyVal → Res PyVal) :=
  if String.eqb t "str" then Some py_str
  else if String.eqb t "int" then Some py_int
  else if String.eqb t "float" then Some py_float
  else if String.eqb t "bool" then Some py_bool
  else None.

(** *** The shape of what [int] accepts *)

Definition is_digit (c : ascii) : bool := bool_decide (is_Some (digit_value c)).

Fixpoint all_spaces (s : string) : bool :=
  match s with
  | EmptyString => true
  | String c s' => is_space c && all_spaces s'
  end.

(** What may follow a digit: nothing, a digit, or one underscore and a
    digit. *)
Inductive digit_tail : string → Prop :=
  | tail_end : digit_tail EmptyString
  | tail_digit c s : is_digit c = true → digit_tail s → digit_tail (String c s)
  | tail_sep c s :
      is_digit c = true → digit_tail s → digit_tail (String "_" (String c s)).

Definition digit_groups (s : string) : Prop :=
  match s with
  | String c s' => is_digit c = true ∧ digit_tail s'
  | EmptyString => False
  end.

Definition int_syntax (s : string) : Prop :=
  ∃ l sgn body r,
    s = l +:+ sgn +:+ body +:+ r ∧
    all_spaces l = true ∧ all_spaces r = true ∧
    sgn ∈ [EmptyString; "+"; "-"] ∧ digit_groups body.

(** *** The claims on [instantiate], as they are worded *)

(** A valid literal gives its natural parse. *)
Definition returns_natural_parse (reg : gmap string Ctor) (t s : string)
    : Prop :=
  ∀ r, natural_parse t s = Some r →
       outcome (instantiate reg (PyStr t) (PyStr s)) = Ok r.

(** A string that is no literal of the type fails with a
    TypeCoercionError. *)
Definition rejects_with_coercion_error (reg : gmap string Ctor)
    (t s : string) : Prop :=
  natural_parse t s = None →
  raises (outcome (instantiate reg (PyStr t) (PyStr s))) "TypeCoercionError".

(** The message of an exception names [t]. *)
Definition names_type (e : PyExc) (t : string) : Prop :=
  ∃ msg pre post, exc_msg e = Some msg ∧ msg = pre +:+ t +:+ post.

(** An unknown type fails with an UnsupportedValueTypeError that names
    it. *)
Definition rejects_as_unsupported (reg : gmap string Ctor) (t : string)
    (v : PyVal) : Prop :=
  ∃ e, outcome (instantiate reg (PyStr t) v) = Raise e ∧
       exc_class e = "UnsupportedValueTypeError" ∧ names_type e t.

(** The mapping that holds the keyword arguments [m]. *)
Definition mapping_of (m : list (string * PyVal)) : PyVal :=
  PyDict (map (λ '(k, v), (PyStr k, v)) m).

(** The values whose truth value is false. *)
Definition falsy (v : PyVal) : Prop :=
  v = PyNone ∨ v = PyBool false ∨ v = PyInt 0 ∨
  (∃ f, v = PyFloat f ∧ float_nonzero f = false) ∨
  v = PyStr EmptyString ∨ v = PyList [] ∨ v = PyDict [].

(** None, lists and mappings: data that is neither a number nor a
    string. *)
Definition not_convertible (v : PyVal) : bool :=
  match v with
  | PyNone | PyList _ | PyDict _ => true
  | _ => false
  end.

(** *** Construction and the round trip *)

Definition constructed (reg : gmap string Ctor) (w : WrapperVariation)
    : Prop :=
  ∃ args kwargs, WrapperVariation_new reg args kwargs = Ok w.

Definition declared_fields_equal (w w' : WrapperVariation) : Prop :=
  value_type w = value_type w' ∧ value w = value w' ∧
  variation_id w = variation_id w'.

Definition round_trips (reg : gmap string Ctor) (w : WrapperVariation)
    : Prop :=
  ∃ w', WrapperVariation_from_dict reg (WrapperVariation_asdict w) = Ok w' ∧
        declared_fields_equal w w'.

Definition config_round_trips (reg : gmap string Ctor) (c : WrapperConfig)
    : Prop :=
  ∃ c', WrapperConfig_from_dict reg (WrapperConfig_asdict c) = Ok c' ∧
        name c = name c' ∧
        Forall2 declared_fields_equal (variations c) (variations c').

(** The declared fields of a variation hold data only. *)
Definition plain_variation (w : WrapperVariation) : Prop :=
  plain_data (value w) = true ∧ plain_data (variation_id w) = true.

End Spec.

(** ** The other dataclasses of the module *)

Section Dataclasses.
Context `{rt : PyRuntime}.

(** A call of a dataclass that has no [__post_init__]: the generated
    [__init__] binds the arguments to the fields, in the order of their
    declaration. *)
Definition dataclass_new (cls : string) (params : list Param)
    (args : list PyVal) (kwargs : list (string * PyVal)) : Res PyVal :=
  bound ← bind_args params args kwargs;
  Ok (PyObj true cls bound).

Definition OutputConfig_params : list Param :=
  [mkParam "path" None; mkParam "formatter" None].

Definition ComparisonOutput_params : list Param :=
  [mkParam "better_output" None; mkParam "reason" None].

Definition ExperimentResult_params : list Param :=
  [mkParam "input_data" None;
   mkParam "combination" None;
   mkParam "raw_output" None;
   mkParam "latency" None;
   mkParam "token_usage" None;
   mkParam "evaluator_outputs" None;
   mkParam "human_rating" (Some PyNone);
   mkParam "intermediate_logs" (Some (PyList []))].     (* default_factory=list *)

Definition Metric_params : list Param :=
  [mkParam "name" None; mkParam "value" None;
   mkParam "description" (Some PyNone)].

Definition ExperimentSummary_params : list Param :=
  [mkParam "aggregated_metrics" None].

Definition Experiment_params : list Param :=
  [mkParam "results" None; mkParam "aggregated_metrics" None].

(** The dataclasses of the module whose fields and defaults the values
    here can hold, besides WrapperVariation, WrapperConfig and
    ExperimentConfig.  HumanRating and HumanRatingConfig are left out:
    the default of their [scale] is a tuple of floats. *)
Definition module_dataclasses : list (string * list Param) :=
  [("OutputConfig", OutputConfig_params);
   ("ComparisonOutput", ComparisonOutput_params);
   ("ExperimentResult", ExperimentResult_params);
   ("Metric", Metric_params);
   ("ExperimentSummary", ExperimentSummary_params);
   ("Experiment", Experiment_params)].

Definition is_dataclass_instance (v : PyVal) : bool :=
  match v with
  | PyObj dc _ _ => dc
  | _ => false
  end.

(** [dataclasses.asdict(self)], which is the method [asdict] of
    ExperimentResult, Metric, ExperimentSummary and Experiment: it
    refuses, with TypeError, what is not a dataclass instance. *)
Definition asdict (self : PyVal) : Res PyVal :=
  if is_dataclass_instance self then Ok (asdict_inner self)
  else Raise TypeError.

(** *** Shapes of calls and of values *)

Definition param_names (params : list Param) : list string := p_name <$> params.

(** The names of the parameters without a default. *)
Definition required_names (params : list Param) : list string :=
  omap (λ p, match p_default p with
             | None => Some (p_name p)
             | Some _ => None
             end) params.

(** A call with [nargs] positional arguments and the keywords [keys] fits
    the parameters: not too many positional arguments, no keyword twice,
    every keyword a parameter that no positional argument fills, and every
    parameter without a default filled. *)
Definition accepted_call (params : list Param) (nargs : nat)
    (keys : list string) : Prop :=
  (nargs ≤ length params)%nat ∧
  NoDup keys ∧
  (∀ k, k ∈ keys →
        k ∈ param_names params ∧ k ∉ take nargs (param_names params)) ∧
  (∀ k, k ∈ required_names params →
        k ∈ take nargs (param_names params) ++ keys).

(** The attribute [k] of an ExperimentConfig. *)
Definition ExperimentConfig_getattr (c : ExperimentConfig.t) (k : string)
    : option PyVal :=
  assoc k
    [("description", ExperimentConfig.description c);
     ("variations", ExperimentConfig.variations c);
     ("dataset", ExperimentConfig.dataset c);
     ("wrapper_configs", ExperimentConfig.wrapper_configs c);
     ("combinations_to_run", ExperimentConfig.combinations_to_run c);
     ("evaluators", ExperimentConfig.evaluators c);
     ("output", ExperimentConfig.output c);
     ("human_rating_configs", ExperimentConfig.human_rating_configs c);
     ("existing_experiment_path", ExperimentConfig.existing_experiment_path c);
     ("version", ExperimentConfig.version c);
     ("output_parser", ExperimentConfig.output_parser c);
     ("metadata", ExperimentConfig.metadata c)].

(** The built-in type that a primitive tag names. *)
Definition has_type (t : string) (v : PyVal) : bool :=
  match v with
  | PyStr _ => String.eqb t "str"
  | PyInt _ => String.eqb t "int"
  | PyFloat _ => String.eqb t "float"
  | PyBool _ => String.eqb t "bool"
  | _ => false
  end.

Definition is_str (v : PyVal) : bool :=
  match v with
  | PyStr _ => true
  | _ => false
  end.

(** A mapping whose keys are all strings. *)
Definition is_keyword_mapping (v : PyVal) : bool :=
  match v with
  | PyDict entries => forallb (λ e, is_str e.1) entries
  | _ => false
  end.

(** Every class instance inside is a dataclass instance, down through
    lists, mappings and the fields of dataclass instances. *)
Fixpoint only_dataclasses (v : PyVal) : bool :=
  match v with
  | PyObj dc _ attrs => dc && forallb (λ '(_, x), only_dataclasses x) attrs
  | PyList items => forallb only_dataclasses items
  | PyDict entries =>
      forallb (λ '(k, x), only_dataclasses k && only_dataclasses x) entries
  | _ => true
  end.

End Dataclasses.

(** ** A runtime for the examples

    Every theorem below holds in every runtime.  The closed examples need
    one to run in; none of them converts to or from a float, or depends on
    the text of a [repr], so they use the smallest one: it has no float
    objects, one text for every [repr], and CPython's default cap on
    decimal conversions. *)

Definition example_floats : PyFloats := {|
  pyfloat := Empty_set;
  float_of_string := λ _, None;
  float_of_int := λ _, None;
  float_trunc := λ _, None;
  float_is_nan := λ _, false;
  float_nonzero := λ _, false
|}.

Definition example_runtime : PyRuntime := {|
  rt_floats := example_floats;
  py_repr := λ _, "<repr>";
  int_max_str_digits := 4300
|}.

Section ExampleData.
#[local] Existing Instance example_runtime.

(** A registered class [Foo] that keeps its keyword arguments. *)
Definition Foo : Ctor := λ kwargs, Ok (PyObj false "Foo" kwargs).

Definition foo_registry : gmap string Ctor := <["Foo" := Foo]> CLASS_REGISTRY.

(** A registry in which a class sits under the name of a primitive. *)
Definition shadow_registry : gmap string Ctor := <["int" := Foo]> CLASS_REGISTRY.

(** An instance of the module's dataclass [ComparisonOutput]. *)
Definition a_comparison : PyVal :=
  PyObj true "ComparisonOutput"
    [("better_output", PyStr "A"); ("reason", PyStr "shorter")].

(** An instance of [DatasetConfig], a class declared elsewhere. *)
Definition a_dataset : PyVal := PyObj true "DatasetConfig" [].

(** The variation built by the call with value_type ["bool"] and that
    instance as value. *)
Definition comparison_variation : WrapperVariation :=
  mkWrapperVariation (PyStr "bool") a_comparison (PyBool true) PyNone.

(** Variations over plain data. *)
Definition int_variation : WrapperVariation :=
  mkWrapperVariation (PyStr "int") (PyStr "42") (PyInt 42) (PyStr "v1").

Definition bool_variation : WrapperVariation :=
  mkWrapperVariation (PyStr "bool") (PyList [PyInt 1; PyStr "a"])
                     (PyBool true) PyNone.

Definition a_config : WrapperConfig :=
  mkWrapperConfig (PyStr "prompt") [int_variation; bool_variation].

End ExampleData.

(** The same runtime with the lowest cap on decimal conversions that the
    interpreter lets one set. *)
Definition low_cap_runtime : PyRuntime := {|
  rt_floats := example_floats;
  py_repr := λ _, "<repr>";
  int_max_str_digits := 640
|}.

Section MoreExampleData.
#[local] Existing Instance example_runtime.

(** A registered class that insists on a keyword [a]. *)
Definition Picky : Ctor := λ kwargs,
  match assoc "a" kwargs with
  | Some _ => Ok (PyObj false "Picky" kwargs)
  | None => Raise TypeError
  end.

Definition picky_registry : gmap string Ctor := <["Picky" := Picky]> CLASS_REGISTRY.

Definition foo_variation : WrapperVariation :=
  mkWrapperVariation (PyStr "Foo") (PyDict [(PyStr "a", PyInt 1)])
                     (PyObj false "Foo" [("a", PyInt 1)]) PyNone.

(** A Metric, and an Experiment that holds it. *)
Definition a_metric : PyVal :=
  PyObj true "Metric"
    [("name", PyStr "accuracy"); ("value", PyInt 1); ("description", PyNone)].

Definition an_experiment : PyVal :=
  PyObj true "Experiment"
    [("results", PyList []);
     ("aggregated_metrics",
      PyDict [(PyStr "exact", PyDict [(PyStr "accuracy", a_metric)])])].

(** The config that the call with description "demo", no variations and
    [a_dataset] builds. *)
Definition demo_config : ExperimentConfig.t :=
  ExperimentConfig.mk (PyStr "demo") (PyList []) a_dataset PyNone PyNone PyNone
    PyNone (PyList []) PyNone PyNone PyNone (PyDict []).

End MoreExampleData.

(** * Properties *)

(** ** Characters and the scan of an integer *)

Section IntFacts.
Context `{rt : PyRuntime}.

Lemma digit_not_special c d :
  digit_value c = Some d →
  is_space c = false ∧ Ascii.eqb c "_" = false ∧
  Ascii.eqb c "+" = false ∧ Ascii.eqb c "-" = false.
Proof.
  destruct c as [[] [] [] [] [] [] [] []]; vm_compute; intros H;
    solve [ discriminate H | repeat split ].
Qed.

Lemma over_digit_limit_mono (m n : nat) :
  (m ≤ n)%nat → over_digit_limit n = false → over_digit_limit m = false.
Proof.
  unfold over_digit_limit. intros Hle H.
  apply andb_false_iff in H as [H | H]; apply andb_false_iff.
  - by left.
  - right. apply Nat.ltb_ge. apply Nat.ltb_ge in H. lia.
Qed.

Lemma scan_digits_plain (s : string) : ∀ acc cnt v,
  digits_value acc s = Some v →
  scan_digits false acc cnt s = Some (v, (cnt + String.length s)%nat, EmptyString).
Proof.
  induction s as [|c s IH]; intros acc cnt v H; simpl in *.
  - simplify_eq. by rewrite Nat.add_0_r.
  - destruct (digit_value c) as [d|]; simpl in *; [|done].
    rewrite (IH _ (S cnt) _ H). do 3 f_equal. lia.
Qed.

Lemma int_of_str_unsigned (neg : bool) (body : string) (z : Z) :
  unsigned_literal body = Some z →
  over_digit_limit (String.length body) = false →
  (if starts_with_underscore body then Raise (ValueError None)
   else match scan_digits false 0 0 body with
        | Some (n, cnt, rest) =>
            if (cnt =? 0)%nat then Raise (ValueError None)
            else if over_digit_limit cnt then Raise (ValueError None)
            else match skip_spaces rest with
                 | EmptyString => Ok (if neg then - n else n)
                 | String _ _ => Raise (ValueError None)
                 end
        | None => Raise (ValueError None)
        end) = Ok (if neg then - z else z).
Proof.
  intros Hlit Hlim. destruct body as [|c body]; [done|].
  unfold unsigned_literal in Hlit.
  assert (∃ d, digit_value c = Some d) as [d Hd].
  { simpl in Hlit. destruct (digit_value c); [eauto | done]. }
  destruct (digit_not_special _ _ Hd) as (_ & Hus & _ & _).
  cbn [starts_with_underscore]. rewrite Hus.
  rewrite (scan_digits_plain _ 0 0%nat z Hlit).
  cbn [Nat.add]. by rewrite Hlim.
Qed.

Lemma int_of_str_literal (s : string) (z : Z) :
  int_literal s = Some z →
  over_digit_limit (String.length s) = false →
  int_of_str s = Ok z.
Proof.
  intros Hlit Hlim. destruct s as [|c s]; [done|].
  unfold int_literal in Hlit. unfold int_of_str.
  destruct (Ascii.eqb c "-") eqn:Hm.
  { apply Ascii.eqb_eq in Hm as ->.
    destruct (unsigned_literal s) as [u|] eqn:Hu; simplify_eq/=.
    apply (int_of_str_unsigned true s u Hu).
    eapply over_digit_limit_mono; [|exact Hlim]. simpl. lia. }
  destruct (Ascii.eqb c "+") eqn:Hp.
  { apply Ascii.eqb_eq in Hp as ->.
    cbn [skip_spaces is_space]. simpl.
    apply (int_of_str_unsigned false s z Hlit).
    eapply over_digit_limit_mono; [|exact Hlim]. simpl. lia. }
  assert (∃ d, digit_value c = Some d) as [d Hd].
  { simpl in Hlit. destruct (digit_value c); [eauto | done]. }
  destruct (digit_not_special _ _ Hd) as (Hsp & _ & _ & _).
  cbn [skip_spaces]. rewrite Hsp. cbn [split_sign]. rewrite Hp, Hm.
  by apply (int_of_str_unsigned false (String c s) z).
Qed.

End IntFacts.

(** ** [instantiate] on the primitive tags *)

Section Primitive.
Context `{rt : PyRuntime}.
Implicit Types (reg : gmap string Ctor) (v : PyVal) (t s : string).

Lemma primitive_tag_cases t :
  t ∈ primitive_tags → t = "str" ∨ t = "int" ∨ t = "float" ∨ t = "bool".
Proof.
  unfold primitive_tags. rewrite !elem_of_cons, elem_of_nil.
  intros [-> | [-> | [-> | [-> | []]]]]; auto.
Qed.

Lemma instantiate_str reg v :
  instantiate reg (PyStr "str") v = mkRun [EvEval "str"] (py_str v).
Proof. reflexivity. Qed.

Lemma instantiate_int reg v :
  instantiate reg (PyStr "int") v = mkRun [EvEval "int"] (py_int v).
Proof. reflexivity. Qed.

Lemma instantiate_float reg v :
  instantiate reg (PyStr "float") v = mkRun [EvEval "float"] (py_float v).
Proof. reflexivity. Qed.

Lemma instantiate_bool reg v :
  instantiate reg (PyStr "bool") v = mkRun [EvEval "bool"] (py_bool v).
Proof. reflexivity. Qed.

(** On a primitive tag the guard sends the call to [eval], which gets the
    tag and resolves it to the entry of the table. *)
Lemma instantiate_primitive reg t v :
  t ∈ primitive_tags →
  ∃ f, primitive_parser t = Some f ∧
       instantiate reg (PyStr t) v = mkRun [EvEval t] (f v).
Proof.
  intros Ht. destruct (primitive_tag_cases t Ht) as [-> | [-> | [-> | ->]]];
    eexists; (split; [reflexivity|]); reflexivity.
Qed.

Lemma in_strings_spec (vt : PyVal) (l : list string) :
  in_strings vt l = true ↔ ∃ t, vt = PyStr t ∧ t ∈ l.
Proof.
  destruct vt as [| | | |s| | |]; simpl.
  5: { rewrite bool_decide_eq_true. split; [eauto|]. by intros (?&[= ->]&?). }
  all: split; [done | by intros (?&?&?)].
Qed.

Lemma in_strings_false t (l : list string) :
  t ∉ l → in_strings (PyStr t) l = false.
Proof. intros H. simpl. by apply bool_decide_eq_false. Qed.

Lemma int_of_str_outcome s :
  (∃ z, int_of_str s = Ok z) ∨ int_of_str s = Raise (ValueError None).
Proof.
  unfold int_of_str. destruct (split_sign _) as [neg body].
  destruct (starts_with_underscore body); [by right|].
  destruct (scan_digits _ _ _ _) as [[[n cnt] rest]|]; [|by right].
  destruct (cnt =? 0)%nat; [by right|].
  destruct (over_digit_limit cnt); [by right|].
  destruct (skip_spaces rest); [left; eauto | by right].
Qed.

Lemma call_builtin_no_code (f : Builtin) v src : call_builtin f v ≠ RunsCode src.
Proof.
  destruct f; simpl.
  - unfold py_str, py_str_text. by destruct (repr_over_cap v).
  - unfold py_int. destruct v; simpl; try done.
    + destruct (float_trunc f); [done|]. by destruct (float_is_nan f).
    + destruct (int_of_str_outcome s) as [[z ->] | ->]; done.
  - unfold py_float, py_float_of_int. destruct v; simpl; try done.
    + by destruct (float_of_int _).
    + by destruct (float_of_int _).
    + by destruct (float_of_string _).
  - done.
Qed.

Lemma primitive_parser_builtin t f :
  primitive_parser t = Some f → ∃ b, py_eval t = Some b ∧ f = call_builtin b.
Proof.
  unfold primitive_parser, py_eval.
  repeat (destruct (String.eqb t _); [intros [= <-]; eauto |]). done.
Qed.

(** *** C1 *)

Lemma bool_literal_truthy s b :
  bool_literal s = Some b → py_truthy (PyStr s) = true.
Proof.
  unfold bool_literal. simpl.
  destruct (String.eqb s "true") eqn:E1.
  { apply String.eqb_eq in E1 as ->. done. }
  destruct (String.eqb s "True") eqn:E2.
  { apply String.eqb_eq in E2 as ->. done. }
  destruct (String.eqb s "false") eqn:E3.
  { apply String.eqb_eq in E3 as ->. done. }
  destruct (String.eqb s "False") eqn:E4.
  { apply String.eqb_eq in E4 as ->. done. }
  done.
Qed.

(** C1 (as amended): for the tags str, int and float, [instantiate] of a
    valid literal returns its natural parse (for int, as long as the
    literal is within the interpreter's cap on decimal conversions); for
    the tag bool it returns True on every valid literal, "false"
    included. *)
Theorem instantiate_valid_literal reg t s (r : PyVal) :
  t ∈ primitive_tags →
  natural_parse t s = Some r →
  (t = "int" → over_digit_limit (String.length s) = false) →
  outcome (instantiate reg (PyStr t) (PyStr s))
  = Ok (if String.eqb t "bool" then PyBool true else r).
Proof.
  intros Ht Hparse Hlim.
  destruct (primitive_tag_cases t Ht) as [-> | [-> | [-> | ->]]].
  - by injection Hparse as <-.
  - rewrite instantiate_int. cbn in Hparse |- *.
    destruct (int_literal s) as [z|] eqn:Hz; simplify_eq/=.
    by rewrite (int_of_str_literal s z Hz (Hlim eq_refl)).
  - rewrite instantiate_float. cbn in Hparse |- *.
    destruct (float_of_string s); by simplify_eq/=.
  - rewrite instantiate_bool. cbn in Hparse |- *.
    destruct (bool_literal s) as [b|] eqn:Hb; simplify_eq/=.
    unfold py_bool. by rewrite (bool_literal_truthy s b Hb).
Qed.

End Primitive.

(** ** The truth value, the guard and the registry *)

Section Dispatch.
Context `{rt : PyRuntime}.
Implicit Types (reg : gmap string Ctor) (v : PyVal) (t s : string).

Lemma py_truthy_false v : py_truthy v = false ↔ falsy v.
Proof.
  unfold falsy. destruct v as [|b|n|f|s|items|entries|dc cls attrs]; simpl.
  - naive_solver.
  - destruct b; naive_solver.
  - rewrite negb_false_iff, Z.eqb_eq. naive_solver.
  - split; [intros H; right; right; right; left; eauto|].
    intros [?|[?|[?|[(f' & [= <-] & H)|[?|[?|?]]]]]]; done.
  - rewrite negb_false_iff, String.eqb_eq. naive_solver.
  - rewrite negb_false_iff, bool_decide_eq_true. naive_solver.
  - rewrite negb_false_iff, bool_decide_eq_true. naive_solver.
  - naive_solver.
Qed.

(** C9: for the tag bool, [instantiate] returns True for every non-empty
    string, "false" among them, and for any value it returns False
    exactly when the value is falsy: None, False, 0, 0.0, the empty
    string, the empty list or the empty mapping. *)
Theorem instantiate_bool_truthiness reg :
  (∀ c s, outcome (instantiate reg (PyStr "bool") (PyStr (String c s)))
          = Ok (PyBool true)) ∧
  outcome (instantiate reg (PyStr "bool") (PyStr "false")) = Ok (PyBool true) ∧
  outcome (instantiate reg (PyStr "bool") (PyStr EmptyString))
  = Ok (PyBool false) ∧
  (∀ v, ∃ b, outcome (instantiate reg (PyStr "bool") v) = Ok (PyBool b) ∧
             (b = false ↔ falsy v)).
Proof.
  split_and!; try done.
  intros v. exists (py_truthy v). split; [done|]. apply py_truthy_false.
Qed.

Lemma registry_find_str reg t : registry_find reg (PyStr t) = Ok (reg !! t).
Proof. reflexivity. Qed.

(** C10: on the four primitive names the registry is not consulted: the
    run is the one of the empty registry, it is the primitive conversion
    of the value, and no registered class is called, whatever is
    registered under the name. *)
Theorem primitive_precedes_registry reg t v :
  t ∈ primitive_tags →
  instantiate reg (PyStr t) v = instantiate CLASS_REGISTRY (PyStr t) v ∧
  (∃ f, primitive_parser t = Some f ∧
        outcome (instantiate reg (PyStr t) v) = f v) ∧
  (∀ cls kwargs, EvConstruct cls kwargs ∉ events (instantiate reg (PyStr t) v)).
Proof.
  intros Ht.
  destruct (instantiate_primitive reg t v Ht) as (f & Hf & Hrun).
  destruct (instantiate_primitive CLASS_REGISTRY t v Ht) as (f' & Hf' & Hrun').
  rewrite Hrun, Hrun'. simplify_eq. repeat split.
  - eauto.
  - intros cls kwargs Hin. simpl in Hin.
    apply list_elem_of_singleton in Hin. done.
Qed.

Lemma eval_only_tags reg (vt : PyVal) v src :
  EvEval src ∈ events (instantiate reg vt v) → src ∈ primitive_tags.
Proof.
  unfold instantiate. destruct (in_strings vt primitive_tags) eqn:Hin.
  - apply in_strings_spec in Hin as (t & -> & Ht). simpl.
    intros H. apply list_elem_of_singleton in H. by simplify_eq.
  - destruct (registry_find reg vt) as [[ctor|]| |]; simpl;
      try (by intros ?%elem_of_nil).
    destruct (unpack_mapping v); simpl; try (by intros ?%elem_of_nil).
    intros H. apply list_elem_of_singleton in H. done.
Qed.

(** C8: on a primitive tag the result is the entry of the closed table
    applied to the value; the only text given to [eval] is the tag
    itself, whatever the value is; nothing else is evaluated as code.
    And in any call of [instantiate], [eval] only ever gets one of the
    four names. *)
Theorem primitive_path_safe reg t v :
  t ∈ primitive_tags →
  (∃ f, primitive_parser t = Some f ∧
        outcome (instantiate reg (PyStr t) v) = f v) ∧
  events (instantiate reg (PyStr t) v) = [EvEval t] ∧
  (∀ src, outcome (instantiate reg (PyStr t) v) ≠ RunsCode src) ∧
  (∀ (vt' v' : PyVal) src,
      EvEval src ∈ events (instantiate reg vt' v') → src ∈ primitive_tags).
Proof.
  intros Ht.
  destruct (instantiate_primitive reg t v Ht) as (f & Hf & Hrun).
  rewrite Hrun. simpl. repeat split.
  - eauto.
  - intros src.
    destruct (primitive_parser_builtin t f Hf) as (b & _ & ->).
    apply call_builtin_no_code.
  - intros vt' v' src. apply eval_only_tags.
Qed.

(** C3 (as amended): for a value_type that is neither a primitive tag nor
    registered, [instantiate] fails, for every value, with the built-in
    ValueError whose message is "Unsupported value_type: " followed by
    the value_type; no class is called and nothing is evaluated. *)
Theorem instantiate_unsupported reg t v :
  t ∉ primitive_tags →
  reg !! t = None →
  instantiate reg (PyStr t) v
  = mkRun [] (Raise (ValueError (Some ("Unsupported value_type: " +:+ t)))).
Proof.
  intros Ht Hreg. unfold instantiate.
  rewrite (in_strings_false t _ Ht), registry_find_str, Hreg. reflexivity.
Qed.

Lemma keyword_args_mapping (m : list (string * PyVal)) :
  keyword_args (map (λ '(k, x), (PyStr k, x)) m) = Some m.
Proof.
  induction m as [|[k x] m IH]; [done|]. simpl. by rewrite IH.
Qed.

(** C4: for a name registered with constructor [C], and not a primitive
    tag, [instantiate] of a mapping of keyword arguments calls [C] with
    them, once, and returns what [C] returns. *)
Theorem instantiate_registered reg t (C : Ctor) (m : list (string * PyVal)) :
  t ∉ primitive_tags →
  reg !! t = Some C →
  instantiate reg (PyStr t) (mapping_of m)
  = mkRun [EvConstruct (PyStr t) m] (C m).
Proof.
  intros Ht Hreg. unfold instantiate.
  rewrite (in_strings_false t _ Ht), registry_find_str, Hreg.
  unfold mapping_of, unpack_mapping. by rewrite keyword_args_mapping.
Qed.

End Dispatch.

(** ** What [int] refuses *)

Section IntSyntax.
Context `{rt : PyRuntime}.
Implicit Types (reg : gmap string Ctor) (v : PyVal) (s : string).

Lemma skip_spaces_split s :
  ∃ l, s = l +:+ skip_spaces s ∧ all_spaces l = true.
Proof.
  induction s as [|c s (l & Hl & Hsp)]; simpl.
  - by exists EmptyString.
  - destruct (is_space c) eqn:Hc.
    + exists (String c l). split.
      * exact (f_equal (String c) Hl).
      * simpl. by rewrite Hc.
    + by exists EmptyString.
Qed.

Lemma skip_spaces_all s : skip_spaces s = EmptyString → all_spaces s = true.
Proof.
  induction s as [|c s IH]; simpl; [done|].
  destruct (is_space c); [auto | done].
Qed.

Lemma split_sign_split s neg body :
  split_sign s = (neg, body) →
  ∃ sgn, s = sgn +:+ body ∧ sgn ∈ [EmptyString; "+"; "-"].
Proof.
  unfold split_sign. destruct s as [|c s].
  - intros [= <- <-]. exists EmptyString. split; [done | set_solver].
  - destruct (Ascii.eqb c "+") eqn:Hp.
    { apply Ascii.eqb_eq in Hp as ->. intros [= <- <-].
      exists "+". split; [done | set_solver]. }
    destruct (Ascii.eqb c "-") eqn:Hm.
    { apply Ascii.eqb_eq in Hm as ->. intros [= <- <-].
      exists "-". split; [done | set_solver]. }
    intros [= <- <-]. exists EmptyString. split; [done | set_solver].
Qed.

(** The run that [scan_digits] consumes: after an underscore it is a
    digit and what may follow one; otherwise it is what may follow a
    digit. *)
Lemma scan_digits_run s : ∀ prev acc cnt n cnt' rest,
  scan_digits prev acc cnt s = Some (n, cnt', rest) →
  ∃ run, s = run +:+ rest ∧
         (if prev then digit_groups run else digit_tail run) ∧
         (run = EmptyString → cnt' = cnt).
Proof.
  induction s as [|c s IH]; intros prev acc cnt n cnt' rest; simpl.
  - destruct prev; [done|]. intros [= <- <- <-].
    exists EmptyString. split_and!; [done | constructor | done].
  - destruct (digit_value c) as [d|] eqn:Hd.
    + intros H. apply IH in H as (run & -> & Hrun & _).
      assert (is_digit c = true) as Hc.
      { unfold is_digit. rewrite Hd. by apply bool_decide_eq_true. }
      exists (String c run). split_and!; [done | | done].
      destruct prev; simpl; [done | by constructor].
    + destruct (Ascii.eqb c "_") eqn:Hus.
      * apply Ascii.eqb_eq in Hus as ->. destruct prev; [done|].
        intros H. apply IH in H as (run & -> & Hrun & _).
        destruct run as [|c' run]; [done|]. destruct Hrun as [Hc' Hrun].
        exists (String "_" (String c' run)).
        split_and!; [done | by constructor | done].
      * destruct prev; [done|]. intros [= <- <- <-].
        exists EmptyString. split_and!; [done | constructor | done].
Qed.

Lemma int_of_str_syntax s z : int_of_str s = Ok z → int_syntax s.
Proof.
  unfold int_of_str.
  destruct (skip_spaces_split s) as (l & Hl & Hsp).
  destruct (split_sign (skip_spaces s)) as [neg body] eqn:Hsign.
  apply split_sign_split in Hsign as (sgn & Hsgn & Hin).
  destruct (starts_with_underscore body) eqn:Hus; [done|].
  destruct (scan_digits false 0 0 body) as [[[n cnt] rest]|] eqn:Hscan; [|done].
  destruct (cnt =? 0)%nat eqn:Hcnt; [done|].
  destruct (over_digit_limit cnt); [done|].
  destruct (skip_spaces rest) eqn:Hrest; [|done]. intros _.
  apply scan_digits_run in Hscan as (run & Hbody & Htail & Hzero).
  exists l, sgn, run, rest. split_and!; [| done | by apply skip_spaces_all | done |].
  - rewrite <- Hbody, <- Hsgn. exact Hl.
  - apply Nat.eqb_neq in Hcnt.
    destruct Htail as [|c t Hc Ht|c t Hc Ht]; simpl.
    + by destruct Hcnt; rewrite Hzero.
    + done.
    + by rewrite Hbody in Hus.
Qed.

(** C2 (as amended): for the tag int, [instantiate] of a string (of
    characters below code point 256) returns an int, and then the string
    is optional whitespace, an optional sign, ASCII decimal digits with
    single underscores between them and optional whitespace, or it fails
    with the built-in ValueError, as it does on "not-a-number"; for the
    tag float it fails with ValueError on the strings the runtime's float
    parser refuses; on None, lists and mappings both fail with
    TypeError.  For the tags str and bool no string fails: a string that
    is no boolean literal gives its truth value. *)
Theorem primitive_conversion_failure reg s :
  outcome (instantiate reg (PyStr "int") (PyStr "not-a-number"))
  = Raise (ValueError None) ∧
  ((∃ z, outcome (instantiate reg (PyStr "int") (PyStr s)) = Ok (PyInt z) ∧
         int_syntax s) ∨
   outcome (instantiate reg (PyStr "int") (PyStr s)) = Raise (ValueError None)) ∧
  outcome (instantiate reg (PyStr "float") (PyStr s))
  = match float_of_string s with
    | Some f => Ok (PyFloat f)
    | None => Raise (ValueError None)
    end ∧
  (∀ v, not_convertible v = true →
        outcome (instantiate reg (PyStr "int") v) = Raise TypeError ∧
        outcome (instantiate reg (PyStr "float") v) = Raise TypeError) ∧
  outcome (instantiate reg (PyStr "str") (PyStr s)) = Ok (PyStr s) ∧
  outcome (instantiate reg (PyStr "bool") (PyStr s))
  = Ok (PyBool (negb (String.eqb s EmptyString))).
Proof.
  split_and!; try done.
  - rewrite instantiate_int. cbn.
    destruct (int_of_str_outcome s) as [[z Hz] | ->]; [left | by right].
    exists z. rewrite Hz. split; [done|]. by eapply int_of_str_syntax.
  - intros v Hv. by destruct v.
Qed.

End IntSyntax.

(** ** Construction *)

Section Construction.
Context `{rt : PyRuntime}.
Implicit Types (reg : gmap string Ctor) (v : PyVal) (w : WrapperVariation).

Lemma bind_args_ok (params : list Param) (args : list PyVal)
    (kwargs bound : list (string * PyVal)) :
  bind_args params args kwargs = Ok bound →
  (length args ≤ length params)%nat ∧
  ∀ k, k ∈ kwargs.*1 → k ∈ p_name <$> params.
Proof.
  unfold bind_args.
  destruct (length params <? length args)%nat eqn:Hlen; [done|].
  destruct (negb (bool_decide (NoDup kwargs.*1))); [done|].
  destruct (forallb _ _) eqn:Hall; [|done]. simpl. intros _.
  apply Nat.ltb_ge in Hlen. split; [done|].
  intros k Hk. rewrite forallb_forall in Hall.
  apply list_elem_of_In, Hall in Hk. unfold keyword_allowed in Hk.
  apply andb_prop in Hk as [Hk _]. by apply bool_decide_eq_true in Hk.
Qed.

Lemma new_inv reg args kwargs w :
  WrapperVariation_new reg args kwargs = Ok w →
  ∃ bound, bind_args WrapperVariation_params args kwargs = Ok bound ∧
           outcome (instantiate reg (value_type w) (value w))
           = Ok (instantiated_value w).
Proof.
  unfold WrapperVariation_new.
  destruct (bind_args _ _ _) as [bound| |] eqn:Hb; simpl; [|done..].
  destruct (outcome (instantiate reg _ _)) as [iv| |] eqn:Hi; simpl; [|done..].
  intros [= <-]. simpl. eauto.
Qed.

(** C5: after a successful construction, [instantiated_value] is the
    result of [instantiate] on the stored [(value_type, value)]; the call
    did not supply it: it had no keyword of that name and at most the
    three positional arguments of the declared fields. *)
Theorem instantiated_value_derived reg args kwargs w :
  WrapperVariation_new reg args kwargs = Ok w →
  outcome (instantiate reg (value_type w) (value w))
  = Ok (instantiated_value w) ∧
  ("instantiated_value" ∉ kwargs.*1) ∧
  (length args ≤ 3)%nat.
Proof.
  intros Hnew. destruct (new_inv _ _ _ _ Hnew) as (bound & Hb & Hi).
  apply bind_args_ok in Hb as [Hlen Hkw]. split_and!; [done | | done].
  intros Hin. apply Hkw in Hin. simpl in Hin.
  rewrite !elem_of_cons, elem_of_nil in Hin.
  by destruct Hin as [?|[?|[?|[]]]].
Qed.

Lemma new_by_keywords reg (vt v vid : PyVal) :
  WrapperVariation_new reg []
    [("value_type", vt); ("value", v); ("variation_id", vid)]
  = (iv ← outcome (instantiate reg vt v);
     Ok (mkWrapperVariation vt v iv vid)).
Proof. reflexivity. Qed.

Lemma instantiate_ok_str reg (vt v r : PyVal) :
  outcome (instantiate reg vt v) = Ok r → ∃ t, vt = PyStr t.
Proof.
  unfold instantiate. destruct (in_strings vt primitive_tags) eqn:Hin.
  { apply in_strings_spec in Hin as (t & -> & _). eauto. }
  unfold registry_find. destruct (hashable vt); [|done].
  destruct vt as [|b|n|f|t|items|entries|dc cls attrs]; try by eauto.
  all: simpl; unfold py_str_text; by destruct (repr_over_cap _).
Qed.

(** C7 (as amended): a call of ExperimentConfig with an empty list of
    variations succeeds, positionally or by keywords: the class validates
    nothing, it stores the empty list and the defaults of the other
    fields. *)
Theorem empty_variations_accepted (d ds : PyVal) :
  let cfg := ExperimentConfig.mk d (PyList []) ds PyNone PyNone PyNone PyNone
               (PyList []) PyNone PyNone PyNone (PyDict []) in
  ExperimentConfig.new [d; PyList []; ds] [] = Ok cfg ∧
  ExperimentConfig.new []
    [("description", d); ("variations", PyList []); ("dataset", ds)] = Ok cfg ∧
  ExperimentConfig.variations cfg = PyList [].
Proof. split_and!; reflexivity. Qed.

End Construction.

(** ** The round trip through [asdict] *)

Section RoundTrip.
Context `{rt : PyRuntime}.
Implicit Types (reg : gmap string Ctor) (v : PyVal) (w : WrapperVariation).

(** Induction on a value, with the hypothesis on every part of a list,
    a mapping or an instance. *)
Lemma PyVal_nested_ind (P : PyVal → Prop) :
  P PyNone → (∀ b, P (PyBool b)) → (∀ n, P (PyInt n)) →
  (∀ f, P (PyFloat f)) → (∀ s, P (PyStr s)) →
  (∀ items, Forall P items → P (PyList items)) →
  (∀ entries, Forall (λ e, P e.1 ∧ P e.2) entries → P (PyDict entries)) →
  (∀ dc cls attrs, Forall (λ a, P a.2) attrs → P (PyObj dc cls attrs)) →
  ∀ v, P v.
Proof.
  intros HNone HBool HInt HFloat HStr HList HDict HObj.
  fix IH 1. intros [|b|n|f|s|items|entries|dc cls attrs].
  - apply HNone.
  - apply HBool.
  - apply HInt.
  - apply HFloat.
  - apply HStr.
  - apply HList. induction items as [|x items IHitems]; constructor.
    + apply IH.
    + apply IHitems.
  - apply HDict. induction entries as [|[k x] entries IHentries]; constructor.
    + split; apply IH.
    + apply IHentries.
  - apply HObj. induction attrs as [|[k x] attrs IHattrs]; constructor.
    + apply IH.
    + apply IHattrs.
Qed.

Lemma asdict_inner_plain v : plain_data v = true → asdict_inner v = v.
Proof.
  induction v as [|b|n|f|s|items IH|entries IH|dc cls attrs _]
    using PyVal_nested_ind; simpl; try done.
  - intros Hplain. f_equal.
    induction IH as [|x items Hx _ IHitems]; [done|].
    simpl in Hplain. apply andb_prop in Hplain as [Hp Hps].
    simpl. by rewrite Hx, IHitems.
  - intros Hplain. f_equal.
    induction IH as [|[k x] entries [Hk Hx] _ IHentries]; [done|].
    simpl in Hplain, Hk, Hx.
    apply andb_prop in Hplain as [Hp Hps]. apply andb_prop in Hp as [Hpk Hpx].
    simpl. by rewrite Hk, Hx, IHentries.
Qed.

Lemma from_dict_asdict reg w :
  WrapperVariation_from_dict reg (WrapperVariation_asdict w)
  = WrapperVariation_new reg []
      [("value_type", asdict_inner (value_type w));
       ("value", asdict_inner (value w));
       ("variation_id", asdict_inner (variation_id w))].
Proof. reflexivity. Qed.

Lemma from_dict_plain reg w :
  constructed reg w → plain_variation w →
  WrapperVariation_from_dict reg (WrapperVariation_asdict w) = Ok w.
Proof.
  intros (args & kwargs & Hnew) [Hv Hid].
  destruct (new_inv _ _ _ _ Hnew) as (_ & _ & Hi).
  destruct (instantiate_ok_str _ _ _ _ Hi) as [t Ht].
  rewrite from_dict_asdict, new_by_keywords.
  rewrite (asdict_inner_plain _ Hv), (asdict_inner_plain _ Hid), Ht. simpl.
  rewrite <- Ht, Hi. simpl. by destruct w.
Qed.

Lemma config_from_dict_asdict reg (c : WrapperConfig) :
  WrapperConfig_from_dict reg (WrapperConfig_asdict c)
  = (ws ← mapM (WrapperVariation_from_dict reg)
               (WrapperVariation_asdict <$> variations c);
     Ok (mkWrapperConfig (asdict_inner (name c)) ws)).
Proof.
  unfold WrapperConfig_from_dict, WrapperConfig_asdict, WrapperConfig_obj.
  cbn. do 2 f_equal. by rewrite <- list_fmap_compose.
Qed.

Lemma mapM_from_dict_plain reg (ws : list WrapperVariation) :
  Forall (λ w, constructed reg w ∧ plain_variation w) ws →
  mapM (WrapperVariation_from_dict reg) (WrapperVariation_asdict <$> ws) = Ok ws.
Proof.
  induction 1 as [|w ws [Hc Hp] _ IH]; [done|].
  cbn [fmap list_fmap mapM]. change (list_fmap _ _ ?f ?l) with (f <$> l).
  by rewrite (from_dict_plain reg w Hc Hp), IH.
Qed.

(** C6 (as amended): a WrapperVariation whose value and variation_id
    hold plain data (None, booleans, integers, floats, strings, and lists
    and mappings of these; no class instance) is rebuilt, from the
    declared fields of its [asdict] mapping, equal on every declared
    field; and so is a WrapperConfig whose name is plain data and whose
    variations are such variations. *)
Theorem asdict_round_trip reg :
  (∀ w, constructed reg w → plain_variation w → round_trips reg w) ∧
  (∀ c, plain_data (name c) = true →
        Forall (λ w, constructed reg w ∧ plain_variation w) (variations c) →
        config_round_trips reg c).
Proof.
  split.
  - intros w Hc Hp. exists w. split; [by apply from_dict_plain | done].
  - intros c Hname Hws. exists c. split_and!.
    + rewrite config_from_dict_asdict, (mapM_from_dict_plain reg _ Hws).
      simpl. rewrite (asdict_inner_plain _ Hname). by destruct c.
    + done.
    + apply Forall2_same_length_lookup. split; [done|].
      intros i x y Hx Hy. by simplify_eq.
Qed.

End RoundTrip.

(** * Worked examples *)

Section Examples.
#[local] Existing Instance example_runtime.

(** [int] on strings, as the interpreter answers. *)
Example int_of_str_padded :
  int_of_str (String "009" (String "010" "-1_0" +:+ String "013" " "))
  = Ok (-10).
Proof. vm_compute. reflexivity. Qed.

Example int_of_str_grouped : int_of_str "+1_000" = Ok 1000.
Proof. vm_compute. reflexivity. Qed.

Example int_of_str_refused :
  Forall (λ s, int_of_str s = Raise (ValueError None))
    [EmptyString; " "; "+"; "- 1"; "_1"; "1_"; "1__0"; "0x1F"; "1e3"; "4 2";
     "1.0"; "abc"].
Proof. repeat constructor. Qed.

(** The call protocol of the generated [__init__]. *)
Example new_positional :
  WrapperVariation_new CLASS_REGISTRY [PyStr "bool"; PyStr "false"] []
  = Ok (mkWrapperVariation (PyStr "bool") (PyStr "false") (PyBool true) PyNone).
Proof. vm_compute. reflexivity. Qed.

Example new_refuses_instantiated_value :
  WrapperVariation_new CLASS_REGISTRY []
    [("value_type", PyStr "int"); ("value", PyStr "1");
     ("instantiated_value", PyInt 3)]
  = Raise TypeError.
Proof. vm_compute. reflexivity. Qed.

Example new_refuses_unhashable_type :
  WrapperVariation_new CLASS_REGISTRY [PyList []; PyInt 1] [] = Raise TypeError.
Proof. vm_compute. reflexivity. Qed.

Example new_unsupported_int_type :
  WrapperVariation_new CLASS_REGISTRY [PyInt 3; PyInt 1] []
  = Raise (ValueError (Some "Unsupported value_type: 3")).
Proof. vm_compute. reflexivity. Qed.

Example asdict_comparison_variation :
  WrapperVariation_asdict comparison_variation
  = PyDict [(PyStr "value_type", PyStr "bool");
            (PyStr "value", PyDict [(PyStr "better_output", PyStr "A");
                                    (PyStr "reason", PyStr "shorter")]);
            (PyStr "instantiated_value", PyBool true);
            (PyStr "variation_id", PyNone)].
Proof. reflexivity. Qed.

(** C1, as worded, fails on the bool literal "false": its natural parse
    is False, the call returns True. *)
Lemma bool_false_not_natural_parse :
  "bool" ∈ primitive_tags ∧
  natural_parse "bool" "false" = Some (PyBool false) ∧
  ¬ returns_natural_parse CLASS_REGISTRY "bool" "false".
Proof.
  split_and!; [by apply (bool_decide_unpack _) | done |].
  intros H. specialize (H (PyBool false) eq_refl). discriminate H.
Qed.

(** The int literal "42" gives 42. *)
Lemma instantiate_valid_literal_witness :
  outcome (instantiate CLASS_REGISTRY (PyStr "int") (PyStr "42")) = Ok (PyInt 42).
Proof.
  apply (instantiate_valid_literal CLASS_REGISTRY "int" "42" (PyInt 42)).
  - by apply (bool_decide_unpack _).
  - reflexivity.
  - intros _. reflexivity.
Defined.

(** C2, as worded, fails on its own example: the exception is a
    ValueError. *)
Lemma not_a_number_not_coercion_error :
  "int" ∈ primitive_tags ∧
  natural_parse "int" "not-a-number" = None ∧
  outcome (instantiate CLASS_REGISTRY (PyStr "int") (PyStr "not-a-number"))
  = Raise (ValueError None) ∧
  ¬ rejects_with_coercion_error CLASS_REGISTRY "int" "not-a-number".
Proof.
  split_and!; [by apply (bool_decide_unpack _) | done | done |].
  intros H. destruct (H eq_refl) as (e & He & Hcls).
  injection He as <-. discriminate Hcls.
Qed.

(** C3, as worded, fails on its own example: the exception is a
    ValueError. *)
Lemma unregistered_not_unsupported_error :
  ("UnregisteredType" ∉ primitive_tags) ∧
  CLASS_REGISTRY !! "UnregisteredType" = None ∧
  ¬ rejects_as_unsupported CLASS_REGISTRY "UnregisteredType" (PyDict []).
Proof.
  split_and!; [by apply (bool_decide_unpack _) | done |].
  intros (e & He & Hcls & _). injection He as <-. discriminate Hcls.
Qed.

Lemma instantiate_unsupported_witness :
  instantiate CLASS_REGISTRY (PyStr "UnregisteredType") (PyDict [])
  = mkRun [] (Raise (ValueError
                       (Some "Unsupported value_type: UnregisteredType"))).
Proof.
  apply (instantiate_unsupported CLASS_REGISTRY "UnregisteredType" (PyDict [])).
  - by apply (bool_decide_unpack _).
  - reflexivity.
Defined.

(** With "Foo" registered, the call with the mapping {"a": 1} is Foo(a=1). *)
Lemma instantiate_registered_witness :
  instantiate foo_registry (PyStr "Foo") (PyDict [(PyStr "a", PyInt 1)])
  = mkRun [EvConstruct (PyStr "Foo") [("a", PyInt 1)]]
          (Ok (PyObj false "Foo" [("a", PyInt 1)])).
Proof.
  apply (instantiate_registered foo_registry "Foo" Foo [("a", PyInt 1)]).
  - by apply (bool_decide_unpack _).
  - vm_compute. reflexivity.
Defined.

Lemma instantiated_value_derived_witness :
  outcome (instantiate CLASS_REGISTRY (value_type int_variation)
                       (value int_variation))
  = Ok (instantiated_value int_variation) ∧
  ("instantiated_value" ∉ [("variation_id", PyStr "v1")].*1) ∧
  (length [PyStr "int"; PyStr "42"] ≤ 3)%nat.
Proof.
  apply (instantiated_value_derived CLASS_REGISTRY
           [PyStr "int"; PyStr "42"] [("variation_id", PyStr "v1")]
           int_variation).
  vm_compute. reflexivity.
Defined.

Lemma int_variation_constructed : constructed CLASS_REGISTRY int_variation.
Proof.
  exists [PyStr "int"; PyStr "42"], [("variation_id", PyStr "v1")].
  vm_compute. reflexivity.
Defined.

Lemma bool_variation_constructed : constructed CLASS_REGISTRY bool_variation.
Proof.
  exists [PyStr "bool"; PyList [PyInt 1; PyStr "a"]], [].
  vm_compute. reflexivity.
Defined.

(** C6, as worded, fails on a variation whose value is a dataclass
    instance: [asdict] turns the instance into a mapping. *)
Lemma dataclass_value_no_round_trip :
  constructed CLASS_REGISTRY comparison_variation ∧
  ¬ round_trips CLASS_REGISTRY comparison_variation.
Proof.
  split.
  - exists [PyStr "bool"; a_comparison], []. vm_compute. reflexivity.
  - intros (w' & Hw' & _ & Hvalue & _).
    vm_compute in Hw'. injection Hw' as <-. discriminate Hvalue.
Qed.

Lemma asdict_round_trip_witness :
  round_trips CLASS_REGISTRY int_variation ∧
  config_round_trips CLASS_REGISTRY a_config.
Proof.
  split.
  - apply (proj1 (asdict_round_trip CLASS_REGISTRY) int_variation).
    + exact int_variation_constructed.
    + split; reflexivity.
  - apply (proj2 (asdict_round_trip CLASS_REGISTRY) a_config).
    + reflexivity.
    + repeat constructor.
      * exact int_variation_constructed.
      * exact bool_variation_constructed.
Defined.

(** C7, as worded, fails: the call with an empty list of variations
    returns a config. *)
Lemma empty_variations_not_rejected :
  ExperimentConfig.new [PyStr "demo"; PyList []; a_dataset] []
  = Ok (ExperimentConfig.mk (PyStr "demo") (PyList []) a_dataset PyNone PyNone
          PyNone PyNone (PyList []) PyNone PyNone PyNone (PyDict [])) ∧
  ¬ fails (ExperimentConfig.new [PyStr "demo"; PyList []; a_dataset] []).
Proof.
  split; [reflexivity|]. intros (e & He). discriminate He.
Qed.

(** A value that is source text is parsed, not run. *)
Lemma primitive_path_safe_witness :
  (∃ f, primitive_parser "int" = Some f ∧
        outcome (instantiate CLASS_REGISTRY (PyStr "int")
                   (PyStr "__import__('os').system('id')"))
        = f (PyStr "__import__('os').system('id')")) ∧
  events (instantiate CLASS_REGISTRY (PyStr "int")
            (PyStr "__import__('os').system('id')")) = [EvEval "int"] ∧
  (∀ src, outcome (instantiate CLASS_REGISTRY (PyStr "int")
                     (PyStr "__import__('os').system('id')"))
          ≠ RunsCode src) ∧
  (∀ (vt' v' : PyVal) src,
      EvEval src ∈ events (instantiate CLASS_REGISTRY vt' v') →
      src ∈ primitive_tags).
Proof.
  apply (primitive_path_safe CLASS_REGISTRY "int"
           (PyStr "__import__('os').system('id')")).
  by apply (bool_decide_unpack _).
Defined.

(** With a class registered under "int", "7" still gives the int 7. *)
Lemma primitive_precedes_registry_witness :
  shadow_registry !! "int" = Some Foo ∧
  instantiate shadow_registry (PyStr "int") (PyStr "7")
  = mkRun [EvEval "int"] (Ok (PyInt 7)).
Proof.
  split; [vm_compute; reflexivity|].
  destruct (primitive_precedes_registry shadow_registry "int" (PyStr "7"))
    as (Hrun & _ & _).
  - by apply (bool_decide_unpack _).
  - rewrite Hrun. reflexivity.
Defined.

End Examples.

(** * Further properties of [instantiate] *)

Section InstantiateMore.
Context `{rt : PyRuntime}.
Implicit Types (reg : gmap string Ctor) (v r : PyVal) (t s : string).

Lemma py_str_ok v r : py_str v = Ok r → ∃ s, r = PyStr s.
Proof.
  unfold py_str. destruct (py_str_text v) as [s| |]; simpl; [|done..].
  intros [= <-]. eauto.
Qed.

Lemma py_int_ok v r : py_int v = Ok r → ∃ n, r = PyInt n.
Proof.
  unfold py_int. destruct v as [|b|n|f|s|items|entries|dc cls attrs]; try done.
  - intros [= <-]. eauto.
  - intros [= <-]. eauto.
  - destruct (float_trunc f); [intros [= <-]; eauto|].
    by destruct (float_is_nan f).
  - destruct (int_of_str s) as [n| |]; simpl; [|done..]. intros [= <-]. eauto.
Qed.

Lemma py_float_ok v r : py_float v = Ok r → ∃ f, r = PyFloat f.
Proof.
  unfold py_float, py_float_of_int.
  destruct v as [|b|n|f|s|items|entries|dc cls attrs]; try done.
  - destruct (float_of_int _); [intros [= <-]; eauto | done].
  - destruct (float_of_int _); [intros [= <-]; eauto | done].
  - intros [= <-]. eauto.
  - destruct (float_of_string _); [intros [= <-]; eauto | done].
Qed.

(** The shape of a result of the primitive branch, tag by tag. *)
Lemma primitive_result_shape reg t v r :
  t ∈ primitive_tags →
  outcome (instantiate reg (PyStr t) v) = Ok r →
  (t = "str" ∧ ∃ s, r = PyStr s) ∨ (t = "int" ∧ ∃ n, r = PyInt n) ∨
  (t = "float" ∧ ∃ f, r = PyFloat f) ∨ (t = "bool" ∧ ∃ b, r = PyBool b).
Proof.
  intros Ht. destruct (primitive_tag_cases t Ht) as [-> | [-> | [-> | ->]]].
  - rewrite instantiate_str. intros H%py_str_ok. eauto.
  - rewrite instantiate_int. intros H%py_int_ok. eauto 6.
  - rewrite instantiate_float. intros H%py_float_ok. eauto 8.
  - rewrite instantiate_bool. intros [= <-]. right. right. right. eauto.
Qed.

(** X1: on a primitive tag, whatever the value, a result of [instantiate]
    is of the built-in type the tag names: a str for "str", an int for
    "int", a float for "float", a bool for "bool". *)
Theorem primitive_result_type reg t v r :
  t ∈ primitive_tags →
  outcome (instantiate reg (PyStr t) v) = Ok r →
  has_type t r = true.
Proof.
  intros Ht Hr.
  destruct (primitive_result_shape reg t v r Ht Hr)
    as [[-> [s ->]] | [[-> [n ->]] | [[-> [f ->]] | [-> [b ->]]]]]; done.
Qed.

(** X2: on a primitive tag [instantiate] is idempotent: a result, taken
    as the value of a second call with the same tag, comes back
    unchanged. *)
Theorem primitive_instantiate_idempotent reg t v r :
  t ∈ primitive_tags →
  outcome (instantiate reg (PyStr t) v) = Ok r →
  outcome (instantiate reg (PyStr t) r) = Ok r.
Proof.
  intros Ht Hr.
  destruct (primitive_result_shape reg t v r Ht Hr)
    as [[-> [s ->]] | [[-> [n ->]] | [[-> [f ->]] | [-> [b ->]]]]];
    reflexivity.
Qed.




End InstantiateMore.

(** * The registry branch and the value_type *)

Section RegistryMore.
Context `{rt : PyRuntime}.
Implicit Types (reg : gmap string Ctor) (v r vt : PyVal) (t s : string).

Lemma keyword_args_inv (entries : list (PyVal * PyVal)) : ∀ m,
  keyword_args entries = Some m →
  entries = map (λ '(k, x), (PyStr k, x)) m.
Proof.
  induction entries as [|[k x] entries IH]; intros m; simpl.
  - by intros [= <-].
  - destruct k as [| | | |s| | |]; try done.
    destruct (keyword_args entries) as [kw|]; simpl; [|done].
    intros [= <-]. simpl. by rewrite <- (IH kw eq_refl).
Qed.

Lemma keyword_args_is_some (entries : list (PyVal * PyVal)) :
  is_Some (keyword_args entries) ↔ forallb (λ e, is_str e.1) entries = true.
Proof.
  induction entries as [|[k x] entries IH]; simpl; [by split; eauto|].
  destruct k as [| | | |s| | |]; simpl;
    try (split; [by intros [? ?] | done]).
  rewrite <- IH. destruct (keyword_args entries); simpl.
  - split; eauto.
  - split; by intros [? ?].
Qed.

Lemma unpack_mapping_true v :
  is_keyword_mapping v = true →
  ∃ m, v = mapping_of m ∧ unpack_mapping v = Ok m.
Proof.
  destruct v as [| | | | | |entries|]; simpl; try done.
  intros [m Hm]%keyword_args_is_some. exists m. rewrite Hm.
  split; [|done]. unfold mapping_of. f_equal. by apply keyword_args_inv.
Qed.

Lemma unpack_mapping_false v :
  is_keyword_mapping v = false → unpack_mapping v = Raise TypeError.
Proof.
  destruct v as [| | | | | |entries|]; simpl; try done.
  intros H. destruct (keyword_args entries) as [m|] eqn:Hm; [|done].
  assert (forallb (λ e, is_str e.1) entries = true) as Ht.
  { apply keyword_args_is_some. eauto. }
  congruence.
Qed.

Lemma instantiate_registry_branch reg t (C : Ctor) v :
  t ∉ primitive_tags → reg !! t = Some C →
  instantiate reg (PyStr t) v
  = match unpack_mapping v with
    | Ok kwargs => mkRun [EvConstruct (PyStr t) kwargs] (C kwargs)
    | Raise e => mkRun [] (Raise e)
    | RunsCode src => mkRun [] (RunsCode src)
    end.
Proof.
  intros Ht Hreg. unfold instantiate.
  by rewrite (in_strings_false t _ Ht), registry_find_str, Hreg.
Qed.

(** X4: every WrapperVariation that was constructed has a supported
    value_type: it is a str, and either a primitive tag, and then
    instantiated_value is of the type it names, or a key of the
    registry, and then value is a mapping with string keys and
    instantiated_value is what the registered class returned for it. *)
Theorem constructed_value_type_supported reg (w : WrapperVariation) :
  constructed reg w →
  ∃ t, value_type w = PyStr t ∧
       ((t ∈ primitive_tags ∧ has_type t (instantiated_value w) = true) ∨
        ((t ∉ primitive_tags) ∧
         ∃ (C : Ctor) m, reg !! t = Some C ∧ value w = mapping_of m ∧
                         C m = Ok (instantiated_value w))).
Proof.
  intros (args & kwargs & Hnew).
  destruct (new_inv _ _ _ _ Hnew) as (_ & _ & Hi).
  destruct (instantiate_ok_str _ _ _ _ Hi) as [t Ht]. exists t.
  split; [done|]. rewrite Ht in Hi.
  destruct (decide (t ∈ primitive_tags)) as [Hin | Hnin].
  - left. split; [done|].
    destruct (primitive_result_shape reg t _ _ Hin Hi)
      as [[-> [s ->]] | [[-> [n ->]] | [[-> [f ->]] | [-> [b ->]]]]]; done.
  - right. split; [done|].
    destruct (reg !! t) as [C|] eqn:Hreg.
    + rewrite (instantiate_registry_branch reg t C _ Hnin Hreg) in Hi.
      destruct (is_keyword_mapping (value w)) eqn:Hmap.
      * destruct (unpack_mapping_true _ Hmap) as (m & Hv & Hm).
        rewrite Hm in Hi. simpl in Hi. eauto.
      * by rewrite (unpack_mapping_false _ Hmap) in Hi.
    + unfold instantiate in Hi.
      by rewrite (in_strings_false t _ Hnin), registry_find_str, Hreg in Hi.
Qed.

(** X5: for a registered name the class is called exactly when the value
    is a mapping whose keys are all strings, with these keys and values
    as keyword arguments; on any other value [instantiate] fails with
    TypeError and the class is not called. *)
Theorem registered_call_needs_mapping reg t (C : Ctor) v :
  t ∉ primitive_tags →
  reg !! t = Some C →
  (is_keyword_mapping v = false →
   instantiate reg (PyStr t) v = mkRun [] (Raise TypeError)) ∧
  (is_keyword_mapping v = true →
   ∃ m, v = mapping_of m ∧
        instantiate reg (PyStr t) v = mkRun [EvConstruct (PyStr t) m] (C m)).
Proof.
  intros Ht Hreg. rewrite (instantiate_registry_branch reg t C v Ht Hreg).
  split; intros Hmap.
  - by rewrite (unpack_mapping_false _ Hmap).
  - destruct (unpack_mapping_true _ Hmap) as (m & Hv & Hm).
    exists m. by rewrite Hm.
Qed.

(** X6: an exception of the registered class comes out of [instantiate]
    unchanged, and the construction of the WrapperVariation fails with
    it. *)
Theorem constructor_failure_propagates reg t (C : Ctor)
    (m : list (string * PyVal)) (e : PyExc) :
  t ∉ primitive_tags →
  reg !! t = Some C →
  C m = Raise e →
  outcome (instantiate reg (PyStr t) (mapping_of m)) = Raise e ∧
  ∀ vid, WrapperVariation_new reg [PyStr t; mapping_of m; vid] [] = Raise e.
Proof.
  intros Ht Hreg HC.
  assert (outcome (instantiate reg (PyStr t) (mapping_of m)) = Raise e) as Hi.
  { rewrite (instantiate_registry_branch reg t C _ Ht Hreg).
    unfold mapping_of, unpack_mapping. by rewrite keyword_args_mapping. }
  split; [done|]. intros vid.
  change (WrapperVariation_new reg [PyStr t; mapping_of m; vid] [])
    with (iv ← outcome (instantiate reg (PyStr t) (mapping_of m));
          Ok (mkWrapperVariation (PyStr t) (mapping_of m) iv vid)).
  by rewrite Hi.
Qed.

Lemma in_strings_non_str vt (l : list string) :
  is_str vt = false → in_strings vt l = false.
Proof. by destruct vt. Qed.

(** X7: a value_type that is not a str is never accepted.  Nothing is
    evaluated and no class is called; the failure is TypeError when the
    value_type is unhashable (a list, a mapping, a dataclass instance) and
    ValueError otherwise; and no WrapperVariation is constructed. *)
Theorem non_string_value_type reg vt v :
  is_str vt = false →
  events (instantiate reg vt v) = [] ∧
  (hashable vt = false → outcome (instantiate reg vt v) = Raise TypeError) ∧
  (hashable vt = true → raises (outcome (instantiate reg vt v)) "ValueError") ∧
  ∀ vid, fails (WrapperVariation_new reg [vt; v; vid] []).
Proof.
  intros Hstr.
  assert (instantiate reg vt v
          = mkRun [] (if hashable vt
                      then shown ← py_str_text vt;
                           Raise (ValueError
                                    (Some ("Unsupported value_type: " +:+ shown)))
                      else Raise TypeError)) as Hrun.
  { unfold instantiate, registry_find.
    rewrite (in_strings_non_str vt _ Hstr).
    destruct (hashable vt); [|done]. by destruct vt. }
  assert (hashable vt = true → raises (outcome (instantiate reg vt v)) "ValueError")
    as Hval.
  { intros Hh. rewrite Hrun, Hh. simpl. unfold py_str_text.
    destruct (repr_over_cap vt); simpl; eexists; (split; [reflexivity | done]). }
  split_and!.
  - by rewrite Hrun.
  - intros Hh. by rewrite Hrun, Hh.
  - done.
  - intros vid.
    change (WrapperVariation_new reg [vt; v; vid] [])
      with (iv ← outcome (instantiate reg vt v);
            Ok (mkWrapperVariation vt v iv vid)).
    destruct (hashable vt) eqn:Hh.
    + destruct (Hval eq_refl) as (e & -> & _). by exists e.
    + rewrite Hrun. by exists TypeError.
Qed.

(** X8: registering a class under a name changes [instantiate] on that
    name only.  Under a name that is no primitive tag, a mapping of
    keyword arguments then reaches the class; under a primitive tag the
    registration has no effect at all. *)
Theorem registration_effect reg n (C : Ctor) :
  (∀ vt v, vt ≠ PyStr n →
           instantiate (<[n := C]> reg) vt v = instantiate reg vt v) ∧
  (n ∉ primitive_tags →
   ∀ m, instantiate (<[n := C]> reg) (PyStr n) (mapping_of m)
        = mkRun [EvConstruct (PyStr n) m] (C m)) ∧
  (n ∈ primitive_tags →
   ∀ vt v, instantiate (<[n := C]> reg) vt v = instantiate reg vt v).
Proof.
  assert (∀ vt v, vt ≠ PyStr n →
            instantiate (<[n := C]> reg) vt v = instantiate reg vt v) as Hother.
  { intros vt v Hne. unfold instantiate, registry_find.
    destruct (in_strings vt primitive_tags); [done|].
    destruct (hashable vt); [|done].
    destruct vt as [| | | |s| | |]; try done.
    rewrite lookup_insert_ne; [done|]. by intros ->. }
  split_and!; [done | |].
  - intros Hn m.
    rewrite (instantiate_registry_branch _ n C _ Hn (lookup_insert_eq _ _ _)).
    unfold mapping_of, unpack_mapping. by rewrite keyword_args_mapping.
  - intros Hn vt v. destruct vt as [| | | |s| | |]; try by apply Hother.
    destruct (decide (s = n)) as [-> | Hne].
    + destruct (instantiate_primitive (<[n := C]> reg) n v Hn) as (f & Hf & ->).
      destruct (instantiate_primitive reg n v Hn) as (f' & Hf' & ->).
      by simplify_eq.
    + apply Hother. by intros [= ->].
Qed.

End RegistryMore.

(** * Further properties of [asdict] *)

Section AsdictMore.
Context `{rt : PyRuntime}.
Implicit Types (reg : gmap string Ctor) (v : PyVal) (w : WrapperVariation).

Lemma asdict_inner_idem v : asdict_inner (asdict_inner v) = asdict_inner v.
Proof.
  induction v as [|b|n|f|s|items IH|entries IH|dc cls attrs IH]
    using PyVal_nested_ind; simpl; try done.
  - f_equal. induction IH as [|x items Hx _ IHitems]; [done|].
    simpl. by rewrite Hx, IHitems.
  - f_equal. induction IH as [|[k x] entries [Hk Hx] _ IHentries]; [done|].
    simpl in *. by rewrite Hk, Hx, IHentries.
  - destruct dc; [|done]. simpl. f_equal.
    induction IH as [|[k x] attrs Hx _ IHattrs]; [done|].
    simpl in *. by rewrite Hx, IHattrs.
Qed.

Lemma plain_asdict_inner v : plain_data (asdict_inner v) = only_dataclasses v.
Proof.
  induction v as [|b|n|f|s|items IH|entries IH|dc cls attrs IH]
    using PyVal_nested_ind; simpl; try done.
  - induction IH as [|x items Hx _ IHitems]; [done|].
    simpl. by rewrite Hx, IHitems.
  - induction IH as [|[k x] entries [Hk Hx] _ IHentries]; [done|].
    simpl in *. by rewrite Hk, Hx, IHentries.
  - destruct dc; [|done]. simpl.
    induction IH as [|[k x] attrs Hx _ IHattrs]; [done|].
    simpl in *. by rewrite Hx, IHattrs.
Qed.

(** X9: [asdict] accepts dataclass instances only.  For an instance it
    returns a mapping whose keys are the names of the fields, in order;
    for any other value it fails with TypeError, and so it does for its
    own result: a mapping obtained from [asdict] cannot be converted a
    second time. *)
Theorem asdict_refuses_own_result (self : PyVal) :
  (is_dataclass_instance self = true →
   ∃ cls attrs m, self = PyObj true cls attrs ∧
                  asdict self = Ok (mapping_of m) ∧ m.*1 = attrs.*1) ∧
  (is_dataclass_instance self = false → asdict self = Raise TypeError) ∧
  (∀ d, asdict self = Ok d → asdict d = Raise TypeError).
Proof.
  split_and!.
  - destruct self as [| | | | | | |dc cls attrs]; try done.
    simpl. intros ->. exists cls, attrs.
    exists (map (λ '(k, x), (k, asdict_inner x)) attrs). split_and!; [done| |].
    + unfold asdict. simpl. f_equal. unfold mapping_of. f_equal.
      rewrite map_map. apply map_ext. by intros [k x].
    + clear. induction attrs as [|[k x] attrs IH]; [done|]. cbn. by f_equal.
  - unfold asdict. by intros ->.
  - unfold asdict. destruct self as [| | | | | | |dc cls attrs]; try done.
    destruct dc; [|done]. simpl. by intros d [= <-].
Qed.

(** X10: the mapping that [asdict] returns for a dataclass instance is
    plain data (no class instance left anywhere in it) exactly when every
    class instance inside the object is a dataclass instance: these are
    turned into mappings at every depth, an instance of another class is
    kept as an instance. *)
Theorem asdict_plain_iff (self d : PyVal) :
  asdict self = Ok d →
  (plain_data d = true ↔ only_dataclasses self = true).
Proof.
  unfold asdict. destruct (is_dataclass_instance self); [|done].
  intros [= <-]. by rewrite plain_asdict_inner.
Qed.

Lemma has_type_only_dataclasses (t : string) v :
  has_type t v = true → only_dataclasses v = true.
Proof. by destruct v. Qed.

(** X11: a constructed WrapperVariation with a primitive value_type,
    whose value and variation_id hold no instance of a class that is not a
    dataclass, has an [asdict] mapping that is plain data. *)
Theorem primitive_variation_asdict_plain reg w (t : string) :
  constructed reg w →
  value_type w = PyStr t →
  t ∈ primitive_tags →
  only_dataclasses (value w) = true →
  only_dataclasses (variation_id w) = true →
  plain_data (WrapperVariation_asdict w) = true.
Proof.
  intros (args & kwargs & Hnew) Hvt Ht Hv Hid.
  destruct (new_inv _ _ _ _ Hnew) as (_ & _ & Hi). rewrite Hvt in Hi.
  assert (only_dataclasses (instantiated_value w) = true) as Hiv.
  { apply (has_type_only_dataclasses t).
    destruct (primitive_result_shape reg t _ _ Ht Hi)
      as [[-> [s ->]] | [[-> [n ->]] | [[-> [f ->]] | [-> [b ->]]]]]; done. }
  unfold WrapperVariation_asdict. rewrite plain_asdict_inner.
  unfold WrapperVariation_obj. simpl. by rewrite Hvt, Hv, Hiv, Hid.
Qed.

(** X12: the [asdict] mapping of a WrapperVariation cannot be given back
    to the class as keyword arguments: it has the key instantiated_value,
    which the generated [__init__] does not take, so the call fails with
    TypeError. *)
Theorem asdict_not_init_arguments reg w :
  ∃ m, WrapperVariation_asdict w = mapping_of m ∧
       m.*1 = ["value_type"; "value"; "instantiated_value"; "variation_id"] ∧
       WrapperVariation_new reg [] m = Raise TypeError.
Proof.
  exists [("value_type", asdict_inner (value_type w));
          ("value", asdict_inner (value w));
          ("instantiated_value", asdict_inner (instantiated_value w));
          ("variation_id", asdict_inner (variation_id w))].
  split_and!; reflexivity.
Qed.

End AsdictMore.

(** * The call protocol of the generated [__init__] *)

Section CallProtocol.
Context `{rt : PyRuntime}.
Implicit Types (params : list Param) (args : list PyVal)
  (kwargs given bound : list (string * PyVal)) (k : string).

Lemma zip_fst_take (names : list string) : ∀ args,
  (zip names args).*1 = take (length args) names.
Proof.
  induction names as [|n names IH]; intros [|a args]; simpl; try done.
  by rewrite IH.
Qed.

Lemma assoc_is_some k given : is_Some (assoc k given) ↔ k ∈ given.*1.
Proof.
  induction given as [|[k' v] given IH]; simpl.
  - split; [by intros [? ?] | by intros ?%elem_of_nil].
  - rewrite elem_of_cons. destruct (String.eqb k k') eqn:Hk.
    + apply String.eqb_eq in Hk. split; eauto.
    + apply String.eqb_neq in Hk. rewrite IH. naive_solver.
Qed.

Lemma assoc_none k given : assoc k given = None ↔ k ∉ given.*1.
Proof. rewrite <- assoc_is_some, eq_None_not_Some. done. Qed.

Lemma assoc_elem_of k v given :
  NoDup given.*1 → (k, v) ∈ given → assoc k given = Some v.
Proof.
  induction given as [|[k' v'] given IH]; simpl.
  - by intros _ ?%elem_of_nil.
  - intros [Hnin Hnd]%NoDup_cons [[= -> ->] | Hin]%elem_of_cons.
    + by rewrite String.eqb_refl.
    + destruct (String.eqb k k') eqn:Hk; [|by apply IH].
      apply String.eqb_eq in Hk as ->. destruct Hnin.
      apply list_elem_of_fmap. by exists (k', v).
Qed.

Lemma assoc_app k given given' :
  assoc k (given ++ given')
  = match assoc k given with
    | Some v => Some v
    | None => assoc k given'
    end.
Proof.
  induction given as [|[k' v] given IH]; simpl; [done|].
  by destruct (String.eqb k k').
Qed.

Lemma collect_outcome params given :
  (∃ bound, collect params given = Ok bound) ∨
  collect params given = Raise TypeError.
Proof.
  induction params as [|p params IH]; simpl; [eauto|].
  destruct (assoc (p_name p) given) as [v|]; simpl.
  - destruct IH as [[b ->] | ->]; simpl; eauto.
  - destruct (p_default p) as [d|]; simpl; [|eauto].
    destruct IH as [[b ->] | ->]; simpl; eauto.
Qed.

Lemma collect_ok params given :
  (∃ bound, collect params given = Ok bound) ↔
  ∀ p, p ∈ params → is_Some (assoc (p_name p) given) ∨ is_Some (p_default p).
Proof.
  induction params as [|p params IH]; simpl.
  - split; [by intros _ p ?%elem_of_nil | eauto].
  - split.
    + intros [bound Hb] q [-> | Hq]%elem_of_cons.
      * destruct (assoc (p_name p) given); [eauto|].
        destruct (p_default p); [eauto | done].
      * apply IH; [|done].
        destruct (collect params given) as [b| |]; [eauto|..];
          destruct (assoc (p_name p) given); simpl in Hb; try done;
          destruct (p_default p); done.
    + intros H.
      destruct (proj2 IH) as [b Hb].
      { intros q Hq. apply H. by right. }
      rewrite Hb. destruct (H p) as [[v ->] | [d Hd]]; [by left | by eauto |].
      destruct (assoc (p_name p) given); simpl; [eauto|].
      rewrite Hd. simpl. eauto.
Qed.

(** What a successful binding holds for each parameter: the argument
    given for it, or else its default. *)
Lemma collect_lookup params given : ∀ bound,
  NoDup (param_names params) →
  collect params given = Ok bound →
  bound.*1 = param_names params ∧
  ∀ p, p ∈ params →
       assoc (p_name p) bound
       = match assoc (p_name p) given with
         | Some v => Some v
         | None => p_default p
         end ∧
       is_Some (assoc (p_name p) bound).
Proof.
  induction params as [|p params IH]; intros bound; simpl.
  - intros _ [= <-]. split; [done|]. by intros q ?%elem_of_nil.
  - intros [Hnin Hnd]%NoDup_cons Hb.
    destruct (collect params given) as [rest| |] eqn:Hrest.
    2,3: destruct (assoc (p_name p) given); simpl in Hb; try done;
         destruct (p_default p); done.
    destruct (IH rest Hnd eq_refl) as [Hnames Hrestp].
    assert (∃ v, bound = (p_name p, v) :: rest ∧
                 Some v = match assoc (p_name p) given with
                          | Some v => Some v
                          | None => p_default p
                          end) as (v & -> & Hv).
    { destruct (assoc (p_name p) given) as [v|]; simpl in Hb.
      - injection Hb as <-. eauto.
      - destruct (p_default p) as [d|]; simpl in Hb; [|done].
        injection Hb as <-. eauto. }
    split; [unfold param_names in *; rewrite !fmap_cons; by f_equal|].
    intros q [-> | Hq]%elem_of_cons; simpl.
    + rewrite String.eqb_refl. rewrite <- Hv. eauto.
    + destruct (String.eqb (p_name q) (p_name p)) eqn:Hqp; [|by apply Hrestp].
      apply String.eqb_eq in Hqp. destruct Hnin. rewrite <- Hqp.
      apply list_elem_of_fmap. eauto.
Qed.

Lemma bind_args_outcome params args kwargs :
  (∃ bound, bind_args params args kwargs = Ok bound) ∨
  bind_args params args kwargs = Raise TypeError.
Proof.
  unfold bind_args.
  destruct (length params <? length args)%nat; [by right|].
  destruct (negb _); [by right|].
  destruct (negb _); [by right|]. apply collect_outcome.
Qed.

Lemma required_names_spec params k :
  k ∈ required_names params ↔
  ∃ p, p ∈ params ∧ p_default p = None ∧ p_name p = k.
Proof.
  unfold required_names. rewrite list_elem_of_omap. split.
  - intros (p & Hp & Hk). exists p. destruct (p_default p); naive_solver.
  - intros (p & Hp & Hd & <-). exists p. by rewrite Hd.
Qed.

Lemma given_names params args kwargs :
  (zip (p_name <$> params) args ++ kwargs).*1
  = take (length args) (param_names params) ++ kwargs.*1.
Proof. by rewrite fmap_app, zip_fst_take. Qed.

(** The calls that bind are the accepted ones. *)
Lemma bind_args_accepts params args kwargs :
  (∃ bound, bind_args params args kwargs = Ok bound) ↔
  accepted_call params (length args) kwargs.*1.
Proof.
  unfold bind_args, accepted_call.
  destruct (length params <? length args)%nat eqn:Hlen.
  { apply Nat.ltb_lt in Hlen. split; [by intros [? ?] | lia]. }
  apply Nat.ltb_ge in Hlen.
  destruct (bool_decide (NoDup kwargs.*1)) eqn:Hnd; simpl.
  2: { apply bool_decide_eq_false in Hnd. split; [by intros [? ?] | tauto]. }
  apply bool_decide_eq_true in Hnd.
  destruct (forallb _ _) eqn:Hall; simpl.
  2: { split; [by intros [? ?]|]. intros (_ & _ & Hkeys & _).
       assert (forallb (keyword_allowed (p_name <$> params)
                          (zip (p_name <$> params) args).*1) kwargs.*1 = true);
         [|congruence].
       apply forallb_forall. intros k Hk%list_elem_of_In.
       destruct (Hkeys k Hk) as [Hin Hnin]. unfold keyword_allowed.
       rewrite zip_fst_take. apply andb_true_intro. split.
       - by apply bool_decide_eq_true.
       - apply negb_true_iff. by apply bool_decide_eq_false. }
  rewrite forallb_forall in Hall. rewrite collect_ok. split.
  - intros Hcol. split_and!; [done | done | |].
    + intros k Hk%list_elem_of_In. apply Hall in Hk.
      unfold keyword_allowed in Hk. rewrite zip_fst_take in Hk.
      apply andb_prop in Hk as [Hin Hnin%negb_true_iff].
      split; [by apply bool_decide_eq_true in Hin|].
      by apply bool_decide_eq_false in Hnin.
    + intros k (p & Hp & Hd & <-)%required_names_spec.
      rewrite <- given_names, <- assoc_is_some.
      destruct (Hcol p Hp) as [? | [d Hsome]]; [done | congruence].
  - intros (_ & _ & _ & Hreq) p Hp.
    destruct (p_default p) as [d|] eqn:Hd; [by right; eauto|]. left.
    rewrite assoc_is_some, given_names. apply Hreq, required_names_spec. eauto.
Qed.

(** What a successful call stores: every keyword argument under its
    name, every positional argument under the name of the parameter at its
    position, and the default for a parameter that got nothing. *)
Lemma bind_args_stores params args kwargs bound :
  NoDup (param_names params) →
  bind_args params args kwargs = Ok bound →
  bound.*1 = param_names params ∧
  (∀ k v, (k, v) ∈ kwargs → assoc k bound = Some v) ∧
  (∀ i v, args !! i = Some v →
          ∃ k, param_names params !! i = Some k ∧ assoc k bound = Some v) ∧
  (∀ p, p ∈ params →
        p_name p ∉ take (length args) (param_names params) ++ kwargs.*1 →
        ∃ d, p_default p = Some d ∧ assoc (p_name p) bound = Some d).
Proof.
  intros Hnames Hbind.
  destruct (proj1 (bind_args_accepts params args kwargs))
    as (Hlen & Hnd & Hkeys & _); [eauto|].
  assert (collect params (zip (p_name <$> params) args ++ kwargs) = Ok bound)
    as Hcol.
  { unfold bind_args in Hbind.
    destruct (length params <? length args)%nat; [done|].
    destruct (negb _); [done|]. by destruct (negb _). }
  destruct (collect_lookup _ _ _ Hnames Hcol) as [Hfst Hlook].
  assert (NoDup (zip (p_name <$> params) args).*1) as Hndpos.
  { rewrite zip_fst_take. eapply sublist_NoDup; [exact Hnames|].
    apply sublist_take. }
  split_and!; [done | | |].
  - intros k v Hkv.
    assert (k ∈ kwargs.*1) as Hk by (apply list_elem_of_fmap; by exists (k, v)).
    destruct (Hkeys k Hk) as [Hin Hnin].
    apply list_elem_of_fmap in Hin as (p & -> & Hp).
    destruct (Hlook p Hp) as [-> _]. rewrite assoc_app.
    rewrite (proj2 (assoc_none _ _)); [|by rewrite zip_fst_take].
    by rewrite (assoc_elem_of _ v _ Hnd Hkv).
  - intros i v Hi.
    assert (i < length (param_names params))%nat as Hlt.
    { apply lookup_lt_Some in Hi. unfold param_names.
      rewrite length_fmap. lia. }
    destruct (lookup_lt_is_Some_2 _ _ Hlt) as [k Hk]. exists k.
    split; [done|].
    assert (k ∈ param_names params) as Hin by (by eapply list_elem_of_lookup_2).
    apply list_elem_of_fmap in Hin as (p & -> & Hp).
    destruct (Hlook p Hp) as [-> _]. rewrite assoc_app.
    rewrite (assoc_elem_of _ v _ Hndpos); [done|].
    apply list_elem_of_lookup. exists i. apply lookup_zip_with_Some.
    exists (p_name p), v. eauto.
  - intros p Hp Hnin. destruct (Hlook p Hp) as [Hassoc Hsome].
    rewrite <- given_names in Hnin. apply assoc_none in Hnin.
    rewrite Hnin in Hassoc. rewrite Hassoc in Hsome.
    destruct Hsome as [d Hd]. exists d. by rewrite Hassoc.
Qed.

End CallProtocol.

(** * Construction of the dataclasses *)

Section DataclassesMore.
Context `{rt : PyRuntime}.
Implicit Types (args : list PyVal) (kwargs bound : list (string * PyVal)).

Lemma config_names_nodup : NoDup (param_names ExperimentConfig.params).
Proof. by apply (bool_decide_unpack _). Qed.

Lemma config_new_inv args kwargs (c : ExperimentConfig.t) :
  ExperimentConfig.new args kwargs = Ok c →
  ∃ bound, bind_args ExperimentConfig.params args kwargs = Ok bound ∧
           ∀ k, k ∈ param_names ExperimentConfig.params →
                ExperimentConfig_getattr c k = Some (field bound k).
Proof.
  unfold ExperimentConfig.new.
  destruct (bind_args _ _ _) as [bound| |]; simpl; [|done..].
  intros [= <-]. exists bound. split; [done|].
  intros k Hk. unfold param_names in Hk. simpl in Hk.
  repeat (apply elem_of_cons in Hk as [-> | Hk]; [reflexivity|]).
  by apply elem_of_nil in Hk.
Qed.

Lemma field_assoc bound (k : string) v : assoc k bound = Some v → field bound k = v.
Proof. unfold field. by intros ->. Qed.

(** X13: the calls of ExperimentConfig that succeed are exactly those
    whose shape fits the twelve fields: at most twelve positional
    arguments, no keyword twice, every keyword a field name that no
    positional argument fills, and description, variations and dataset
    filled.  Every other call fails with TypeError.  The values play no
    part: no field is validated. *)
Theorem experiment_config_accepts args kwargs :
  ((∃ c, ExperimentConfig.new args kwargs = Ok c) ↔
   accepted_call ExperimentConfig.params (length args) kwargs.*1) ∧
  ((∃ c, ExperimentConfig.new args kwargs = Ok c) ∨
   ExperimentConfig.new args kwargs = Raise TypeError) ∧
  length ExperimentConfig.params = 12%nat ∧
  required_names ExperimentConfig.params
  = ["description"; "variations"; "dataset"].
Proof.
  assert ((∃ c, ExperimentConfig.new args kwargs = Ok c) ↔
          (∃ bound, bind_args ExperimentConfig.params args kwargs = Ok bound))
    as Hnew.
  { unfold ExperimentConfig.new.
    destruct (bind_args _ _ _) as [bound| |]; simpl.
    - split; eauto.
    - split; by intros [? ?].
    - split; by intros [? ?]. }
  split_and!; [| | done | done].
  - rewrite Hnew. apply bind_args_accepts.
  - unfold ExperimentConfig.new.
    destruct (bind_args_outcome ExperimentConfig.params args kwargs)
      as [[bound ->] | ->]; simpl; eauto.
Qed.

(** X14: a successful call of ExperimentConfig stores every argument
    unchanged: a keyword argument in the field of its name, the i-th
    positional argument in the i-th declared field, and in a field that
    got no argument its default. *)
Theorem experiment_config_stores args kwargs (c : ExperimentConfig.t) :
  ExperimentConfig.new args kwargs = Ok c →
  (∀ k v, (k, v) ∈ kwargs → ExperimentConfig_getattr c k = Some v) ∧
  (∀ i v, args !! i = Some v →
          ∃ k, param_names ExperimentConfig.params !! i = Some k ∧
               ExperimentConfig_getattr c k = Some v) ∧
  (∀ p, p ∈ ExperimentConfig.params →
        p_name p ∉ take (length args) (param_names ExperimentConfig.params)
                   ++ kwargs.*1 →
        ∃ d, p_default p = Some d ∧
             ExperimentConfig_getattr c (p_name p) = Some d).
Proof.
  intros Hnew. destruct (config_new_inv _ _ _ Hnew) as (bound & Hbind & Hget).
  destruct (bind_args_stores _ _ _ _ config_names_nodup Hbind)
    as (Hfst & Hkw & Hpos & Hdef).
  assert (∀ k v, assoc k bound = Some v → ExperimentConfig_getattr c k = Some v)
    as Hread.
  { intros k v Hk. rewrite Hget; [by rewrite (field_assoc _ _ _ Hk)|].
    rewrite <- Hfst. apply assoc_is_some. eauto. }
  split_and!.
  - intros k v Hkv. eauto.
  - intros i v Hi. destruct (Hpos i v Hi) as (k & Hk & Hassoc). eauto.
  - intros p Hp Hnin. destruct (Hdef p Hp Hnin) as (d & Hd & Hassoc). eauto.
Qed.

Lemma bind_args_positional_keywords (params : list Param) args :
  NoDup (param_names params) →
  (length args ≤ length params)%nat →
  bind_args params args [] = bind_args params [] (zip (param_names params) args).
Proof.
  intros Hnd Hlen. unfold bind_args. simpl.
  replace (length params <? length args)%nat with false
    by (symmetry; by apply Nat.ltb_ge).
  assert (NoDup (zip (param_names params) args).*1) as Hnd'.
  { rewrite zip_fst_take. eapply sublist_NoDup; [exact Hnd|].
    apply sublist_take. }
  rewrite (bool_decide_eq_true_2 _ Hnd'), zip_with_nil_r. simpl.
  assert (forallb (keyword_allowed (p_name <$> params) [])
            (zip (param_names params) args).*1 = true) as ->.
  { apply forallb_forall. intros k Hk%list_elem_of_In.
    rewrite zip_fst_take in Hk. apply elem_of_take in Hk as (i & Hk & _).
    unfold keyword_allowed. apply andb_true_intro. split.
    - apply bool_decide_eq_true. by eapply list_elem_of_lookup_2.
    - apply negb_true_iff, bool_decide_eq_false. by intros ?%elem_of_nil. }
  simpl. by rewrite app_nil_r.
Qed.

(** X15: the fields of ExperimentConfig can be given by position or by
    name: a call with up to twelve positional arguments is the call that
    gives the same values as keywords of the fields, in the order of
    declaration. *)
Theorem experiment_config_positional_keywords args :
  (length args ≤ 12)%nat →
  ExperimentConfig.new args []
  = ExperimentConfig.new [] (zip (param_names ExperimentConfig.params) args).
Proof.
  intros Hlen. unfold ExperimentConfig.new.
  by rewrite (bind_args_positional_keywords _ args config_names_nodup Hlen).
Qed.

Lemma module_dataclasses_nodup (cls : string) (params : list Param) :
  (cls, params) ∈ module_dataclasses → NoDup (param_names params).
Proof.
  unfold module_dataclasses. intros H.
  repeat (apply elem_of_cons in H as [[= -> ->] | H];
          [by apply (bool_decide_unpack _)|]).
  by apply elem_of_nil in H.
Qed.

Lemma asdict_fields (cls : string) bound :
  asdict_inner (PyObj true cls bound)
  = mapping_of (map (λ '(k, x), (k, asdict_inner x)) bound).
Proof.
  simpl. unfold mapping_of. f_equal. rewrite map_map.
  apply map_ext. by intros [k x].
Qed.

Lemma asdict_fields_keys bound :
  (map (λ '(k, x), (k, asdict_inner x)) bound).*1 = bound.*1.
Proof. induction bound as [|[k x] bound IH]; [done|]. cbn. by f_equal. Qed.

Lemma asdict_fields_idem bound :
  map (λ '(k, x), (k, asdict_inner x))
      (map (λ '(k, x), (k, asdict_inner x)) bound)
  = map (λ '(k, x), (k, asdict_inner x)) bound.
Proof.
  induction bound as [|[k x] bound IH]; [done|].
  cbn. by rewrite asdict_inner_idem, IH.
Qed.

Lemma asdict_fields_plain bound :
  forallb plain_data bound.*2 = true →
  map (λ '(k, x), (k, asdict_inner x)) bound = bound.
Proof.
  induction bound as [|[k x] bound IH]; [done|]. cbn.
  intros [Hx Hb]%andb_prop. by rewrite (asdict_inner_plain x Hx), IH.
Qed.

Lemma collect_exact (params : list Param) given :
  NoDup given.*1 → given.*1 = param_names params →
  collect params given = Ok given.
Proof.
  intros Hnd Hnames.
  assert (∀ ps m, Forall2 (λ p e, e.1 = p_name p ∧ e ∈ given) ps m →
                  collect ps given = Ok m) as Hgen.
  { induction 1 as [|p [k x] ps m [Hk He] _ IH]; simpl; [done|].
    simpl in Hk. subst k. rewrite (assoc_elem_of _ x _ Hnd He). simpl.
    by rewrite IH. }
  apply Hgen. clear Hgen. unfold param_names in Hnames.
  assert (∀ m, m ⊆ given → ∀ ps, m.*1 = p_name <$> ps →
               Forall2 (λ p e, e.1 = p_name p ∧ e ∈ given) ps m) as Hall.
  { induction m as [|e m IH]; intros Hsub [|p ps] Hm; simpl in Hm; try done.
    injection Hm as He Hm. constructor.
    - split; [done|]. apply Hsub. by left.
    - apply IH; [|done]. intros x Hx. apply Hsub. by right. }
  by apply Hall.
Qed.

(** X16: for OutputConfig, ComparisonOutput, ExperimentResult, Metric,
    ExperimentSummary and Experiment, the [asdict] mapping of an instance
    has the declared fields as keys, in order, and can be given back to
    the class as keyword arguments: the call succeeds and the instance it
    builds has the same [asdict] mapping.  When the fields of the first
    instance hold plain data, the second instance is equal to it. *)
Theorem dataclass_asdict_round_trip (cls : string) (params : list Param)
    args kwargs bound :
  (cls, params) ∈ module_dataclasses →
  dataclass_new cls params args kwargs = Ok (PyObj true cls bound) →
  ∃ m obj,
    asdict (PyObj true cls bound) = Ok (mapping_of m) ∧
    m.*1 = param_names params ∧
    dataclass_new cls params [] m = Ok obj ∧
    asdict obj = asdict (PyObj true cls bound) ∧
    (forallb plain_data bound.*2 = true → obj = PyObj true cls bound).
Proof.
  intros Hcls Hnew. pose proof (module_dataclasses_nodup _ _ Hcls) as Hnd.
  assert (bind_args params args kwargs = Ok bound) as Hbind.
  { unfold dataclass_new in Hnew.
    destruct (bind_args params args kwargs) as [b| |]; simpl in Hnew; [|done..].
    by injection Hnew as ->. }
  destruct (bind_args_stores _ _ _ _ Hnd Hbind) as (Hfst & _).
  set (m := map (λ '(k, x), (k, asdict_inner x)) bound).
  assert (m.*1 = param_names params) as Hm.
  { unfold m. by rewrite asdict_fields_keys. }
  assert (bind_args params [] m = Ok m) as Hbind'.
  { unfold bind_args. simpl. rewrite zip_with_nil_r, Hm.
    rewrite (bool_decide_eq_true_2 _ Hnd). simpl.
    assert (forallb (keyword_allowed (p_name <$> params) [])
              (param_names params) = true) as ->.
    { apply forallb_forall. intros k Hk%list_elem_of_In.
      unfold keyword_allowed. apply andb_true_intro. split.
      - by apply bool_decide_eq_true.
      - apply negb_true_iff, bool_decide_eq_false. by intros ?%elem_of_nil. }
    simpl. apply collect_exact; by rewrite Hm. }
  exists m, (PyObj true cls m). split_and!.
  - unfold asdict. cbn [is_dataclass_instance]. f_equal. apply asdict_fields.
  - done.
  - unfold dataclass_new. by rewrite Hbind'.
  - unfold asdict. cbn [is_dataclass_instance]. rewrite !asdict_fields.
    unfold m. by rewrite asdict_fields_idem.
  - intros Hplain. unfold m. by rewrite (asdict_fields_plain _ Hplain).
Qed.

(** X17: the calls of OutputConfig, ComparisonOutput, ExperimentResult,
    Metric, ExperimentSummary and Experiment that succeed are exactly
    those whose shape fits the declared fields; every other call fails
    with TypeError.  The instance built has the declared fields, in
    order, and holds every argument unchanged under the name of its
    field. *)
Theorem dataclass_new_accepts (cls : string) (params : list Param) args kwargs :
  (cls, params) ∈ module_dataclasses →
  ((∃ obj, dataclass_new cls params args kwargs = Ok obj) ↔
   accepted_call params (length args) kwargs.*1) ∧
  ((∃ obj, dataclass_new cls params args kwargs = Ok obj) ∨
   dataclass_new cls params args kwargs = Raise TypeError) ∧
  (∀ obj, dataclass_new cls params args kwargs = Ok obj →
          ∃ bound, obj = PyObj true cls bound ∧
                   bound.*1 = param_names params ∧
                   (∀ k v, (k, v) ∈ kwargs → assoc k bound = Some v) ∧
                   (∀ i v, args !! i = Some v →
                           ∃ k, param_names params !! i = Some k ∧
                                assoc k bound = Some v)).
Proof.
  intros Hcls. pose proof (module_dataclasses_nodup _ _ Hcls) as Hnd.
  unfold dataclass_new. split_and!.
  - rewrite <- bind_args_accepts.
    destruct (bind_args params args kwargs) as [b| |]; simpl.
    + split; eauto.
    + split; by intros [? ?].
    + split; by intros [? ?].
  - destruct (bind_args_outcome params args kwargs) as [[b ->] | ->];
      simpl; eauto.
  - intros obj Hobj.
    destruct (bind_args params args kwargs) as [b| |] eqn:Hbind;
      simpl in Hobj; [|done..]. injection Hobj as <-.
    destruct (bind_args_stores _ _ _ _ Hnd Hbind) as (Hfst & Hkw & Hpos & _).
    exists b. by split_and!.
Qed.

End DataclassesMore.

(** * Further worked examples *)

Section MoreExamples.
#[local] Existing Instance example_runtime.

Lemma primitive_result_type_witness :
  outcome (instantiate CLASS_REGISTRY (PyStr "int") (PyBool true))
  = Ok (PyInt 1) ∧
  has_type "int" (PyInt 1) = true.
Proof.
  split; [reflexivity|].
  apply (primitive_result_type CLASS_REGISTRY "int" (PyBool true) (PyInt 1)).
  - by apply (bool_decide_unpack _).
  - reflexivity.
Defined.

Lemma primitive_instantiate_idempotent_witness :
  outcome (instantiate CLASS_REGISTRY (PyStr "int") (PyInt 42)) = Ok (PyInt 42).
Proof.
  apply (primitive_instantiate_idempotent CLASS_REGISTRY "int" (PyStr " 42 ")).
  - by apply (bool_decide_unpack _).
  - vm_compute. reflexivity.
Defined.

Lemma foo_variation_constructed : constructed foo_registry foo_variation.
Proof.
  exists [PyStr "Foo"; PyDict [(PyStr "a", PyInt 1)]], [].
  vm_compute. reflexivity.
Defined.

Lemma constructed_value_type_supported_witness :
  ∃ t, value_type foo_variation = PyStr t ∧
       ((t ∈ primitive_tags ∧
         has_type t (instantiated_value foo_variation) = true) ∨
        ((t ∉ primitive_tags) ∧
         ∃ (C : Ctor) m, foo_registry !! t = Some C ∧
                         value foo_variation = mapping_of m ∧
                         C m = Ok (instantiated_value foo_variation))).
Proof.
  apply (constructed_value_type_supported foo_registry foo_variation).
  exact foo_variation_constructed.
Defined.

Lemma registered_call_needs_mapping_witness :
  instantiate foo_registry (PyStr "Foo") (PyList [PyInt 1])
  = mkRun [] (Raise TypeError).
Proof.
  apply (registered_call_needs_mapping foo_registry "Foo" Foo (PyList [PyInt 1])).
  - by apply (bool_decide_unpack _).
  - vm_compute. reflexivity.
  - reflexivity.
Defined.

Lemma constructor_failure_propagates_witness :
  outcome (instantiate picky_registry (PyStr "Picky")
             (PyDict [(PyStr "b", PyInt 1)])) = Raise TypeError ∧
  ∀ vid, WrapperVariation_new picky_registry
           [PyStr "Picky"; PyDict [(PyStr "b", PyInt 1)]; vid] []
         = Raise TypeError.
Proof.
  apply (constructor_failure_propagates picky_registry "Picky" Picky
           [("b", PyInt 1)] TypeError).
  - by apply (bool_decide_unpack _).
  - vm_compute. reflexivity.
  - reflexivity.
Defined.

Lemma non_string_value_type_witness :
  events (instantiate foo_registry (PyList []) (PyStr "x")) = [] ∧
  (hashable (PyList []) = false →
   outcome (instantiate foo_registry (PyList []) (PyStr "x")) = Raise TypeError) ∧
  (hashable (PyList []) = true →
   raises (outcome (instantiate foo_registry (PyList []) (PyStr "x")))
          "ValueError") ∧
  ∀ vid, fails (WrapperVariation_new foo_registry [PyList []; PyStr "x"; vid] []).
Proof.
  apply (non_string_value_type foo_registry (PyList []) (PyStr "x")).
  reflexivity.
Defined.

Lemma registration_effect_witness :
  instantiate (<["Foo" := Foo]> CLASS_REGISTRY) (PyStr "Foo")
    (mapping_of [("a", PyInt 1)])
  = mkRun [EvConstruct (PyStr "Foo") [("a", PyInt 1)]]
          (Ok (PyObj false "Foo" [("a", PyInt 1)])) ∧
  instantiate (<["Foo" := Foo]> CLASS_REGISTRY) (PyStr "Bar") PyNone
  = instantiate CLASS_REGISTRY (PyStr "Bar") PyNone.
Proof.
  destruct (registration_effect CLASS_REGISTRY "Foo" Foo) as (Hother & Hnew & _).
  split.
  - apply Hnew. by apply (bool_decide_unpack _).
  - apply Hother. discriminate.
Defined.

Lemma primitive_variation_asdict_plain_witness :
  plain_data (WrapperVariation_asdict int_variation) = true.
Proof.
  apply (primitive_variation_asdict_plain CLASS_REGISTRY int_variation "int").
  - exact int_variation_constructed.
  - reflexivity.
  - by apply (bool_decide_unpack _).
  - reflexivity.
  - reflexivity.
Defined.

Lemma asdict_plain_iff_witness :
  plain_data (asdict_inner an_experiment) = true ∧
  plain_data (asdict_inner (WrapperVariation_obj foo_variation)) = false.
Proof.
  split.
  - apply (proj2 (asdict_plain_iff an_experiment _ eq_refl)). reflexivity.
  - apply not_true_is_false. intros Hplain.
    apply (proj1 (asdict_plain_iff (WrapperVariation_obj foo_variation) _
                    eq_refl)) in Hplain.
    discriminate Hplain.
Defined.

Lemma experiment_config_stores_witness :
  ExperimentConfig_getattr demo_config "dataset" = Some a_dataset ∧
  ExperimentConfig_getattr demo_config "description" = Some (PyStr "demo") ∧
  ExperimentConfig_getattr demo_config "metadata" = Some (PyDict []).
Proof.
  destruct (experiment_config_stores [PyStr "demo"]
              [("dataset", a_dataset); ("variations", PyList [])] demo_config)
    as (Hkw & Hpos & Hdef); [reflexivity|].
  split_and!.
  - apply Hkw. apply elem_of_cons. by left.
  - destruct (Hpos 0%nat (PyStr "demo") eq_refl) as (k & Hk & Hget).
    by injection Hk as <-.
  - destruct (Hdef (mkParam "metadata" (Some (PyDict [])))) as (d & Hd & Hget).
    + unfold ExperimentConfig.params. set_solver.
    + by apply (bool_decide_unpack _).
    + by injection Hd as <-.
Defined.

Lemma experiment_config_positional_keywords_witness :
  ExperimentConfig.new [PyStr "demo"; PyList []; a_dataset] []
  = ExperimentConfig.new []
      [("description", PyStr "demo"); ("variations", PyList []);
       ("dataset", a_dataset)].
Proof.
  apply (experiment_config_positional_keywords
           [PyStr "demo"; PyList []; a_dataset]).
  simpl. lia.
Defined.

Lemma asdict_refuses_own_result_witness :
  asdict a_metric
  = Ok (PyDict [(PyStr "name", PyStr "accuracy"); (PyStr "value", PyInt 1);
                (PyStr "description", PyNone)]) ∧
  asdict (PyDict [(PyStr "name", PyStr "accuracy"); (PyStr "value", PyInt 1);
                  (PyStr "description", PyNone)]) = Raise TypeError.
Proof.
  split; [reflexivity|].
  apply (proj2 (proj2 (asdict_refuses_own_result a_metric))). reflexivity.
Defined.

Lemma metric_in_module : ("Metric", Metric_params) ∈ module_dataclasses.
Proof. unfold module_dataclasses. set_solver. Defined.

Lemma dataclass_asdict_round_trip_witness :
  ∃ m obj,
    asdict a_metric = Ok (mapping_of m) ∧
    m.*1 = ["name"; "value"; "description"] ∧
    dataclass_new "Metric" Metric_params [] m = Ok obj ∧
    asdict obj = asdict a_metric ∧
    (true = true → obj = a_metric).
Proof.
  apply (dataclass_asdict_round_trip "Metric" Metric_params
           [PyStr "accuracy"; PyInt 1] []).
  - exact metric_in_module.
  - reflexivity.
Defined.

Lemma dataclass_new_accepts_witness :
  (∃ obj, dataclass_new "Metric" Metric_params [PyStr "accuracy"] [] = Ok obj) ∨
  dataclass_new "Metric" Metric_params [PyStr "accuracy"] [] = Raise TypeError.
Proof.
  apply (dataclass_new_accepts "Metric" Metric_params [PyStr "accuracy"] []).
  exact metric_in_module.
Defined.

End MoreExamples.

Section LowCapExamples.
#[local] Existing Instance low_cap_runtime.


End LowCapExamples.
